(** * adobo: loading a raw count matrix (IO.py) and the cell plot (plotting.py)

    A shallow embedding of [adobo.IO.load_from_file] and of
    [adobo.plotting.cell_plot].

    The pandas objects the code manipulates are modelled as data:
    a [DataFrame] is a row index, a column index and a rectangle of cells,
    every column carrying the dtype pandas stored for it.  The file system
    and [pandas.read_csv] form the [World] the loader runs in; every access
    to it and every [print] is recorded in a trace of [event]s.

    Scope of the pandas model: strings are sequences of ASCII characters;
    integers are 64-bit signed ([int64]); text columns and an index of
    text hold strings and missing values ([VNaN]); column labels come
    from the header, so they are never missing, and they are unique, as
    [read_csv] renames repeated header fields. *)

From Stdlib Require Import List String Ascii Bool Arith ZArith QArith Lia.
From Stdlib Require Import DecimalString.
From Stdlib Require Import Sorting.Permutation Sorting.Sorted.
Import ListNotations.

Close Scope Q_scope.
Local Open Scope string_scope.
Local Open Scope list_scope.
Local Open Scope nat_scope.

(* ================================================================== *)
(** ** Python strings *)

Module PyStr.

(** The double-quote character (code 34). *)
Definition dquote : ascii := "034"%char.
Definition dq : string := String dquote EmptyString.

(** [str.isspace] on one ASCII character: TAB, LF, VT, FF, CR, the four
    separators FS..US and the space.  The class [\s] of [re] is the same
    set on [str] patterns. *)
Definition is_space (c : ascii) : bool :=
  let n := nat_of_ascii c in
  ((9 <=? n) && (n <=? 13)) || ((28 <=? n) && (n <=? 31)) || (n =? 32).

(** ASCII [str.lower] on one character. *)
Definition lower (c : ascii) : ascii :=
  let n := nat_of_ascii c in
  if (65 <=? n) && (n <=? 90) then ascii_of_nat (n + 32) else c.

Definition chars : string -> list ascii := list_ascii_of_string.
Definition of_chars : list ascii -> string := string_of_list_ascii.

Fixpoint lstrip (s : list ascii) : list ascii :=
  match s with
  | c :: s' => if is_space c then lstrip s' else s
  | [] => []
  end.

(** [line.strip()] *)
Definition strip (s : list ascii) : list ascii :=
  rev (lstrip (rev (lstrip s))).

Fixpoint is_prefix (p s : list ascii) : bool :=
  match p, s with
  | [], _ => true
  | a :: p', b :: s' => Ascii.eqb a b && is_prefix p' s'
  | _ :: _, [] => false
  end.

(** [s.replace(old, new)] for a non-empty [old]: the occurrences of [old]
    are found from left to right and do not overlap.  [skip] counts the
    characters of the occurrence being replaced that are still to be
    dropped. *)
Fixpoint replace_from (old new : list ascii) (skip : nat) (s : list ascii)
  : list ascii :=
  match s with
  | [] => []
  | c :: s' =>
      match skip with
      | S k => replace_from old new k s'
      | O =>
          if is_prefix old s
          then new ++ replace_from old new (Nat.pred (List.length old)) s'
          else c :: replace_from old new 0 s'
      end
  end.

(** With an empty [old], Python inserts [new] before every character and
    at the end. *)
Fixpoint intersperse_all (new s : list ascii) : list ascii :=
  match s with
  | [] => new
  | c :: s' => new ++ c :: intersperse_all new s'
  end.

Definition replace (old new s : string) : string :=
  match chars old with
  | [] => of_chars (intersperse_all (chars new) (chars s))
  | o => of_chars (replace_from o (chars new) 0 (chars s))
  end.

(** ['%s' % n] and [str(n)] for a natural number. *)
Definition str_of_nat (n : nat) : string :=
  NilEmpty.string_of_uint (Nat.to_uint n).

(** ['{:,}'.format(n)]: the decimal digits in groups of three from the
    right, separated by commas.  [k] is the number of digits that follow
    the current one. *)
Fixpoint group3 (ds : list ascii) : list ascii :=
  match ds with
  | [] => []
  | d :: rest =>
      let k := List.length rest in
      if (0 <? k) && (k mod 3 =? 0) then d :: ","%char :: group3 rest
      else d :: group3 rest
  end.

Definition format_thousands (n : nat) : string :=
  of_chars (group3 (chars (str_of_nat n))).

Fixpoint join (sep : string) (l : list string) : string :=
  match l with
  | [] => ""
  | [x] => x
  | x :: rest => (x ++ sep ++ join sep rest)%string
  end.

End PyStr.

(* ================================================================== *)
(** ** The fragment of [re] the loader uses

    A pattern is an optional [^] followed by a sequence of atoms, each
    optionally under [+].  This covers the default separator [\s], the
    separator [\s+] and the control-probe pattern
    [^ArrayControl-[0-9]+]. *)

Module Re.
Import PyStr.

Inductive atom : Type :=
| AChar (c : ascii)            (* a literal character *)
| ASpace                       (* \s *)
| ARange (lo hi : ascii).      (* [lo-hi] *)

Inductive item : Type :=
| Once (a : atom)
| Plus (a : atom).             (* a+ , greedy *)

Record pattern : Type := { anchored : bool; items : list item }.

(** [icase] is the flag [re.IGNORECASE]. *)
Definition atom_matches (icase : bool) (a : atom) (c : ascii) : bool :=
  match a with
  | AChar x => if icase then Ascii.eqb (lower x) (lower c) else Ascii.eqb x c
  | ASpace => is_space c
  | ARange lo hi =>
      let inr (c : ascii) :=
        (nat_of_ascii lo <=? nat_of_ascii c) && (nat_of_ascii c <=? nat_of_ascii hi) in
      if icase then inr c || inr (lower c) else inr c
  end.

(** [match_here icase its s]: the rest of [s] after the match of [its] at
    the start of [s] which the backtracking matcher finds first, if any. *)
Fixpoint match_here (icase : bool) (its : list item)
  : list ascii -> option (list ascii) :=
  match its with
  | [] => fun s => Some s
  | Once a :: r =>
      fun s =>
        match s with
        | c :: s' => if atom_matches icase a c then match_here icase r s' else None
        | [] => None
        end
  | Plus a :: r =>
      let k := match_here icase r in
      let more :=
        fix more (s : list ascii) : option (list ascii) :=
          match s with
          | c :: s' =>
              if atom_matches icase a c
              then match more s' with
                   | Some rest => Some rest
                   | None => k s
                   end
              else k s
          | [] => k []
          end in
      fun s =>
        match s with
        | c :: s' => if atom_matches icase a c then more s' else None
        | [] => None
        end
  end.

Fixpoint search_from (icase : bool) (its : list item) (s : list ascii) : bool :=
  match match_here icase its s with
  | Some _ => true
  | None =>
      match s with
      | [] => false
      | _ :: s' => search_from icase its s'
      end
  end.

(** [re.search(p, s)] as a truth value. *)
Definition search (icase : bool) (p : pattern) (s : string) : bool :=
  if anchored p
  then match match_here icase (items p) (chars s) with
       | Some _ => true
       | None => false
       end
  else search_from icase (items p) (chars s).

(** [p.split(s)] for an unanchored pattern whose matches are never empty.
    [cur] is the field being read, reversed; [skip] the number of
    characters of the current separator still to be dropped. *)
Fixpoint split_from (its : list item) (skip : nat) (cur : list ascii)
  (s : list ascii) : list string :=
  match s with
  | [] => [of_chars (rev cur)]
  | c :: s' =>
      match skip with
      | S k => split_from its k cur s'
      | O =>
          match match_here false its s with
          | Some rest =>
              of_chars (rev cur)
                :: split_from its (List.length s' - List.length rest) [] s'
          | None => split_from its 0 (c :: cur) s'
          end
      end
  end.

Definition split (p : pattern) (s : list ascii) : list string :=
  split_from (items p) 0 [] s.

(** Reading a pattern.  [None] for a pattern outside the fragment. *)
Definition special (c : ascii) : bool :=
  existsb (Ascii.eqb c) (chars "\^$.|?*+()[]{}").

Fixpoint parse_atoms (fuel : nat) (s : list ascii) : option (list item) :=
  match fuel with
  | O => None
  | S fuel' =>
      let quantified (a : atom) (rest : list ascii) :=
        match rest with
        | "+"%char :: rest' =>
            option_map (cons (Plus a)) (parse_atoms fuel' rest')
        | _ => option_map (cons (Once a)) (parse_atoms fuel' rest)
        end in
      match s with
      | [] => Some []
      | "\"%char :: "s"%char :: rest => quantified ASpace rest
      | "["%char :: lo :: "-"%char :: hi :: "]"%char :: rest =>
          quantified (ARange lo hi) rest
      | c :: rest => if special c then None else quantified (AChar c) rest
      end
  end.

Definition compile (src : string) : option pattern :=
  match chars src with
  | "^"%char :: rest =>
      option_map (Build_pattern true) (parse_atoms (S (List.length rest)) rest)
  | s => option_map (Build_pattern false) (parse_atoms (S (List.length s)) s)
  end.

End Re.

(* ================================================================== *)
(** ** Exceptions, the trace and the monad of the embedding *)

Inductive exn : Type :=
| Exception (msg : string)          (* raise Exception(msg) *)
| AttributeError (msg : string)
| IndexError (msg : string)
| NameError (msg : string)
| UnboundLocalError (msg : string)
| ValueError (msg : string).

(** What a run does to the outside, in order. *)
Inductive event : Type :=
| EvExists (path : string)                       (* os.path.exists *)
| EvReadCsv (path delimiter : string)            (* pd.read_csv *)
| EvPrint (line : string)                        (* print *)
| EvClf                                          (* plt.clf *)
| EvScatter (npoints : nat) (color : string)     (* plt.scatter *)
| EvShow.                                        (* plt.show *)

(** A computation yields the events it produced and either the exception
    that ended it or its value. *)
Definition M (A : Type) : Type := list event * (exn + A).

Definition ret {A} (a : A) : M A := ([], inr a).
Definition raise {A} (e : exn) : M A := ([], inl e).
Definition emit (ev : event) : M unit := ([ev], inr tt).
Definition lift {A} (r : exn + A) : M A := ([], r).

Definition bind {A B} (m : M A) (f : A -> M B) : M B :=
  match m with
  | (t, inl e) => (t, inl e)
  | (t, inr a) => let (t', r) := f a in (t ++ t', r)
  end.

Notation "x <- m ;; k" := (bind m (fun x => k))
  (at level 61, m at next level, right associativity).
Notation "m ;;; k" := (bind m (fun _ => k))
  (at level 61, right associativity).

Definition when (b : bool) (m : M unit) : M unit := if b then m else ret tt.

Definition trace {A} (m : M A) : list event := fst m.
Definition outcome {A} (m : M A) : exn + A := snd m.

(* ================================================================== *)
(** ** pandas objects *)

Module Pandas.
Import PyStr.

Inductive dtype : Type := int64 | float64 | bool_ | object_.

Definition dtype_eqb (a b : dtype) : bool :=
  match a, b with
  | int64, int64 | float64, float64 | bool_, bool_ | object_, object_ => true
  | _, _ => false
  end.

(** A cell or a label.  A [float64] is written as the rational it denotes;
    [VNaN] is the missing value. *)
Inductive value : Type :=
| VInt (z : Z)
| VFloat (q : Q)
| VNaN
| VStr (s : string)
| VBool (b : bool).

(** Equality of labels as the hash tables of pandas see it. *)
Definition value_eqb (a b : value) : bool :=
  match a, b with
  | VInt x, VInt y => Z.eqb x y
  | VFloat x, VFloat y => Qeq_bool x y
  | VNaN, VNaN => true
  | VStr x, VStr y => String.eqb x y
  | VBool x, VBool y => Bool.eqb x y
  | _, _ => false
  end.

(** A value that a column of the given dtype can hold. *)
Definition has_dtype (d : dtype) (v : value) : bool :=
  match d, v with
  | int64, VInt z => ((- 2 ^ 63 <=? z) && (z <? 2 ^ 63))%Z
  | float64, (VFloat _ | VNaN) => true
  | bool_, VBool _ => true
  | object_, (VStr _ | VNaN) => true
  | _, _ => false
  end.

(** A value that can label a column: the labels are the fields of the
    header line, kept as text, or the integers 0, 1, ... of a file read
    without a header; a column label is never a missing value. *)
Definition has_label_dtype (d : dtype) (v : value) : bool :=
  match d, v with
  | object_, VNaN => false
  | _, _ => has_dtype d v
  end.

(** One row: its label in the index and its cells, one per column. *)
Record Row : Type := { label : value; cells : list value }.

(** A frame, row by row.  [index_dtype] is the dtype of the row index,
    [columns_dtype] that of the column index, [dtypes] the dtype of each
    column ([exp_mat.dtypes]). *)
Record DataFrame : Type := {
  index_dtype : dtype;
  rows : list Row;
  columns_dtype : dtype;
  columns : list value;
  dtypes : list dtype }.

Definition index (df : DataFrame) : list value := map label (rows df).

Fixpoint all_have_dtype (ds : list dtype) (vs : list value) : bool :=
  match ds, vs with
  | [], [] => true
  | d :: ds', v :: vs' => has_dtype d v && all_have_dtype ds' vs'
  | _, _ => false
  end.

Fixpoint distinct (l : list value) : bool :=
  match l with
  | [] => true
  | x :: l' => negb (existsb (value_eqb x) l') && distinct l'
  end.

(** The invariant of a frame that [read_csv] returns: one dtype per
    column, rectangular, every cell and row label of its column's or
    index's dtype, column labels of the dtype of the column index and
    distinct. *)
Definition wf_frame (df : DataFrame) : bool :=
  (List.length (dtypes df) =? List.length (columns df))
  && forallb (fun r => has_dtype (index_dtype df) (label r)
                       && all_have_dtype (dtypes df) (cells r)) (rows df)
  && forallb (has_label_dtype (columns_dtype df)) (columns df)
  && distinct (columns df).

(** Selection by a boolean mask ([x[mask]], [x.iloc[mask]]). *)
Fixpoint mask_select {A} (m : list bool) (l : list A) : list A :=
  match m, l with
  | b :: m', x :: l' => if b then x :: mask_select m' l' else mask_select m' l'
  | _, _ => []
  end.

(** A label as the string methods see it: a string, or [None] for a
    missing label. *)
Definition label_of (o : option string) : value :=
  match o with
  | Some s => VStr s
  | None => VNaN
  end.

Fixpoint labels_of (l : list value) : option (list (option string)) :=
  match l with
  | [] => Some []
  | VStr s :: l' => option_map (cons (Some s)) (labels_of l')
  | VNaN :: l' => option_map (cons None) (labels_of l')
  | _ :: _ => None
  end.

Definition no_str_accessor : exn :=
  AttributeError "Can only use .str accessor with string values!".

(** [Index.str] on the row index: the accessor exists on an index of
    dtype object whose labels are strings or missing (pandas infers its
    values as string, or as empty when every label is missing).  The
    string methods then work label by label and give a missing result
    for a missing label. *)
Definition str_accessor (d : dtype) (l : list value)
  : exn + list (option string) :=
  match d, labels_of l with
  | object_, Some ls => inr ls
  | _, _ => inl no_str_accessor
  end.

(** [columns.str] on the column index.  [read_csv] takes the column
    labels from the header line as text, or numbers the columns when
    there is no header, so a column index of dtype object holds strings
    and no missing label; it is for such an index that the accessor is
    modelled, and it exists when the labels are strings. *)
Fixpoint strings_of (l : list value) : option (list string) :=
  match l with
  | [] => Some []
  | VStr s :: l' => option_map (cons s) (strings_of l')
  | _ :: _ => None
  end.

Definition columns_str_accessor (d : dtype) (l : list value)
  : exn + list string :=
  match d, strings_of l with
  | object_, Some ss => inr ss
  | _, _ => inl no_str_accessor
  end.

(** [np.logical_not] of the array that [str.contains] returns.  Where a
    label is missing that array holds NaN, which counts as true, so its
    negation is [False]. *)
Definition np_logical_not_object (m : list (option bool)) : list bool :=
  map (fun o => match o with Some b => negb b | None => false end) m.

(** [Index.duplicated(False)]: every occurrence of a label that occurs
    more than once is marked. *)
Definition occurrences (v : value) (l : list value) : nat :=
  List.length (filter (value_eqb v) l).

Definition duplicated (l : list value) : list bool :=
  map (fun v => 1 <? occurrences v l) l.

(** [np.sum] of a boolean array. *)
Definition np_sum (m : list bool) : nat := List.length (filter id m).

(** [np.any] *)
Definition np_any (m : list bool) : bool := existsb id m.

(** [np.logical_not] *)
Definition np_logical_not (m : list bool) : list bool := map negb m.

(** Keeping the rows a mask selects; dtypes and columns are untouched. *)
Definition select_rows (m : list bool) (df : DataFrame) : DataFrame :=
  {| index_dtype := index_dtype df;
     rows := mask_select m (rows df);
     columns_dtype := columns_dtype df;
     columns := columns df;
     dtypes := dtypes df |}.

(** [x.drop(lab, axis=1)]: every column labelled [lab] goes. *)
Definition drop_column (lab : value) (df : DataFrame) : DataFrame :=
  let keep := map (fun c => negb (value_eqb c lab)) (columns df) in
  {| index_dtype := index_dtype df;
     rows := map (fun r => {| label := label r;
                              cells := mask_select keep (cells r) |}) (rows df);
     columns_dtype := columns_dtype df;
     columns := mask_select keep (columns df);
     dtypes := mask_select keep (dtypes df) |}.

(** What [read_csv] does with one line of the file when [sep] is a
    regular expression (longer than one character and not [\s+]): its
    python engine yields [re.compile(sep).split(line.strip())], quotes
    included.  [None] for a pattern outside the fragment of [Re]. *)
Definition split_line (sep : string) (line : string) : option (list string) :=
  option_map (fun p => Re.split p (strip (chars line))) (Re.compile sep).

End Pandas.

(* ================================================================== *)
(** ** adobo/IO.py *)

Module IO.
Import PyStr Pandas.

(** Keyword arguments handed through to [read_csv]. *)
Definition kwargs : Type := list (string * value).

(** The outside of the loader: which paths exist, and what
    [pd.read_csv(filename, delimiter=sep, header=header, **args)] returns
    or raises. *)
Record World : Type := {
  path_exists : string -> bool;
  read_csv : string -> string -> option Z -> kwargs -> exn + DataFrame }.

(** Modelled from the spec: the class [dataset] of the package, which is
    not among the source files.  It carries the matrix and its provenance
    (description, output-filename hint, source path, verbosity) and the
    fields that later analyses attach: the embeddings keyed by method name
    and the cluster assignments, both empty on a fresh dataset. *)
Record dataset : Type := {
  exp_mat : DataFrame;
  desc : string;
  output_filename : option string;
  input_filename : string;
  verbose : bool;
  dr : list (string * DataFrame);
  clusters : list (list Z) }.

Definition new_dataset (m : DataFrame) (d : string) (out : option string)
  (inp : string) (v : bool) : dataset :=
  {| exp_mat := m; desc := d; output_filename := out; input_filename := inp;
     verbose := v; dr := []; clusters := [] |}.

(** The default of [sep]. *)
Definition default_sep : string := "\s".

(** The pattern of line 79 and its reading. *)
Definition control_probe_src : string := "^ArrayControl-[0-9]+".

Definition control_probe_re : Re.pattern :=
  Eval cbv in
    match Re.compile control_probe_src with
    | Some p => p
    | None => Re.Build_pattern false []
    end.

(** The messages of the three [raise] statements. *)
Definition not_found_msg (filename : string) : string :=
  (filename ++ " not found")%string.

Definition column_id_msg : string :=
  (dq ++ "column_id" ++ dq ++ " can only be set to " ++ dq ++ "auto" ++ dq
      ++ ", " ++ dq ++ "yes" ++ dq ++ " or " ++ dq ++ "no" ++ dq)%string.

Definition non_count_msg : string := "Non-count values detected in data matrix.".

(** The error kinds of the specification, as the exceptions the code
    raises for them. *)
Definition FileNotFound (filename : string) : exn := Exception (not_found_msg filename).
Definition InvalidParameter : exn := Exception column_id_msg.
Definition NonCountData : exn := Exception non_count_msg.

Definition out_of_bounds : exn :=
  IndexError "index 0 is out of bounds for axis 0 with size 0".

(** Lines 60-63.  [x[x.columns[0]]] is the first column, the column labels
    being distinct; it becomes the index with its dtype, then every column
    carrying its label is dropped. *)
Definition move_col (x : DataFrame) : exn + DataFrame :=
  match columns x with
  | [] => inl out_of_bounds
  | c0 :: _ =>
      inr (drop_column c0
             {| index_dtype := nth 0 (dtypes x) object_;
                rows := map (fun r => {| label := nth 0 (cells r) VNaN;
                                         cells := cells r |}) (rows x);
                columns_dtype := columns_dtype x;
                columns := columns x;
                dtypes := dtypes x |})
  end.

(** Lines 65-69.  [dtype != int] compares with the platform integer,
    [int64]. *)
Definition resolve_column_id (column_id : string) (exp_mat : DataFrame)
  : exn + DataFrame :=
  if String.eqb column_id "auto" then
    match columns exp_mat with
    | [] => inl out_of_bounds
    | _ :: _ =>
        if negb (dtype_eqb (nth 0 (dtypes exp_mat) object_) int64)
        then move_col exp_mat
        else inr exp_mat
    end
  else if String.eqb column_id "yes" then move_col exp_mat
  else inr exp_mat.

(** Lines 72-76. *)
Definition remove_duplicates (verbose : bool) (exp_mat : DataFrame)
  : M DataFrame :=
  let dups := duplicated (index exp_mat) in
  if np_any dups then
    let exp_mat' := select_rows (np_logical_not dups) exp_mat in
    when verbose
      (emit (EvPrint (str_of_nat (np_sum dups)
                        ++ " duplicated genes detected and removed."))) ;;;
    ret exp_mat'
  else ret exp_mat.

(** Lines 77-78. *)
Definition check_counts (exp_mat : DataFrame) : M unit :=
  if np_any (map (fun d => negb (dtype_eqb d int64)) (dtypes exp_mat))
  then raise NonCountData
  else ret tt.

(** Lines 79-80.  [str.contains] gives a truth value for a label that is
    a string and NaN for a missing one; the mask of line 80 keeps the
    rows whose label is a string that the pattern does not match, so a
    row with a missing label is dropped. *)
Definition remove_control_probes (exp_mat : DataFrame) : M DataFrame :=
  labels <- lift (str_accessor (index_dtype exp_mat) (index exp_mat)) ;;
  let rem := map (option_map (Re.search true control_probe_re)) labels in
  ret (select_rows (np_logical_not_object rem) exp_mat).

(** Assigning a new index of text ([exp_mat.index = ...]). *)
Definition set_index (labels : list (option string)) (df : DataFrame)
  : DataFrame :=
  {| index_dtype := object_;
     rows := map (fun lr => {| label := label_of (fst lr);
                               cells := cells (snd lr) |})
                 (combine labels (rows df));
     columns_dtype := columns_dtype df;
     columns := columns df;
     dtypes := dtypes df |}.

Definition set_columns (labels : list string) (df : DataFrame) : DataFrame :=
  {| index_dtype := index_dtype df;
     rows := rows df;
     columns_dtype := object_;
     columns := map VStr labels;
     dtypes := dtypes df |}.

(** Lines 81-82. *)
Definition strip_quotes (exp_mat : DataFrame) : M DataFrame :=
  labels <- lift (str_accessor (index_dtype exp_mat) (index exp_mat)) ;;
  let exp_mat :=
    set_index (map (option_map (replace dq "")) labels) exp_mat in
  cols <- lift (columns_str_accessor (columns_dtype exp_mat)
                  (columns exp_mat)) ;;
  ret (set_columns (map (replace dq "") cols) exp_mat).

Definition summary_line (exp_mat : DataFrame) : string :=
  (format_thousands (List.length (rows exp_mat)) ++ " genes and "
     ++ format_thousands (List.length (columns exp_mat))
     ++ " cells were loaded")%string.

Definition load_from_file (w : World) (filename sep : string)
  (header : option Z) (column_id : string) (verbose : bool) (desc : string)
  (output_filename input_filename : option string) (args : kwargs)
  : M dataset :=
  emit (EvExists filename) ;;;
  (if negb (path_exists w filename)
   then raise (FileNotFound filename) else ret tt) ;;;
  (if negb (existsb (String.eqb column_id) ["auto"; "yes"; "no"])
   then raise InvalidParameter else ret tt) ;;;
  emit (EvReadCsv filename sep) ;;;
  exp_mat <- lift (read_csv w filename sep header args) ;;
  exp_mat <- lift (resolve_column_id column_id exp_mat) ;;
  exp_mat <- remove_duplicates verbose exp_mat ;;
  check_counts exp_mat ;;;
  exp_mat <- remove_control_probes exp_mat ;;
  exp_mat <- strip_quotes exp_mat ;;
  let obj := new_dataset exp_mat desc output_filename filename verbose in
  when verbose (emit (EvPrint (summary_line exp_mat))) ;;;
  ret obj.

(** The call [load_from_file(filename)] with every default. *)
Definition load_with_defaults (w : World) (filename : string) : M dataset :=
  load_from_file w filename default_sep (Some 0%Z) "auto" false "no desc set"
    None None [].

End IO.

(* ================================================================== *)
(** ** adobo/plotting.py: [cell_plot] *)

Module Plotting.
Import PyStr Pandas IO.

(** What a global name of the module can be bound to. *)
Inductive pyobj : Type :=
| PyModule (name : string)
| PyFunction (name : string)
| PyColors (l : list string)
| PyColor (c : string).

Section CellPlot.

(** The two constants imported from [adobo._constants]. *)
Variable CLUSTER_COLORS_DEFAULT : list string.
Variable YLW_CURRY : string.

(** The global namespace of the module: its imports and its four
    functions. *)
Definition module_globals : list (string * pyobj) :=
  [ ("np", PyModule "numpy");
    ("plt", PyModule "matplotlib.pyplot");
    ("CLUSTER_COLORS_DEFAULT", PyColors CLUSTER_COLORS_DEFAULT);
    ("YLW_CURRY", PyColor YLW_CURRY);
    ("barplot_reads_per_cell", PyFunction "barplot_reads_per_cell");
    ("barplot_genes_per_cell", PyFunction "barplot_genes_per_cell");
    ("cell_plot", PyFunction "cell_plot");
    ("pca_contributors", PyFunction "pca_contributors") ].

Fixpoint lookup {A} (k : string) (d : list (string * A)) : option A :=
  match d with
  | [] => None
  | (k', v) :: d' => if String.eqb k k' then Some v else lookup k d'
  end.

(** Reading a name that the function never assigns: it is looked up in
    the module.  No builtin is called [X]. *)
Definition load_global (name : string) : M pyobj :=
  match lookup name module_globals with
  | Some o => ret o
  | None => raise (NameError ("name '" ++ name ++ "' is not defined"))
  end.

(** [o.shape[0]]: none of the objects a global is bound to has a shape. *)
Definition shape0 (o : pyobj) : M nat :=
  raise (AttributeError "object has no attribute 'shape'").

Definition targets : list string := ["tsne"; "umap"; "irlb"; "svd"].

(** [e.iloc[:, k]] *)
Definition iloc_column (k : nat) (e : DataFrame) : M (list value) :=
  if k <? List.length (columns e)
  then ret (map (fun r => nth k (cells r) VNaN) (rows e))
  else raise (IndexError "single positional indexer is out-of-bounds").

(** [E[idx]] with a boolean array *)
Definition getitem_mask (idx : list bool) (E : DataFrame) : M DataFrame :=
  if List.length idx =? List.length (rows E)
  then ret (select_rows idx E)
  else raise (ValueError "Item wrong length").

(** Lines 131-136.  [col] is the local variable of that name: unbound
    until line 135 assigns it. *)
Fixpoint scatter_loop (E : DataFrame) (cl : list Z) (marker_size : Q)
  (cluster_colors : string) (col : option string) (ids : list nat) : M unit :=
  match ids with
  | [] => ret tt
  | i :: ids' =>
      let idx := map (Z.eqb (Z.of_nat i)) cl in
      e <- getitem_mask idx E ;;
      col <- (if String.eqb cluster_colors "adobo"
              then match nth_error CLUSTER_COLORS_DEFAULT i with
                   | Some c => ret (Some c)
                   | None => raise (IndexError "list index out of range")
                   end
              else ret col) ;;
      xs <- iloc_column 0 e ;;
      ys <- iloc_column 1 e ;;
      c <- match col with
           | Some c => ret c
           | None =>
               raise (UnboundLocalError
                        "local variable 'col' referenced before assignment")
           end ;;
      emit (EvScatter (List.length xs) c) ;;;
      scatter_loop E cl marker_size cluster_colors col ids'
  end.

(** [len(np.unique(cl))] *)
Definition n_unique (cl : list Z) : nat := List.length (nodup Z.eq_dec cl).

Definition cell_plot (obj : dataset) (target : string) (marker_size : Q)
  (cluster_colors : string) (title : string) (verbose : bool) : M unit :=
  (if negb (existsb (String.eqb target) targets)
   then raise (Exception (dq ++ "target" ++ dq ++ " must be one of "
                             ++ join ", " targets))
   else ret tt) ;;;
  E <- match lookup target (dr obj) with
       | None =>
           let v := join ", " (map fst (dr obj)) in
           raise (Exception ("Target " ++ dq ++ target ++ dq
                               ++ " was not found, the following are available: "
                               ++ v))
       | Some E => ret E       (* the value line 123 reads *)
       end ;;
  (if negb (Qle_bool 0 marker_size)
   then raise (Exception "Marker size cannot be negative.") else ret tt) ;;;
  cl <- (if List.length (clusters obj) =? 0
         then
           X <- load_global "X" ;;
           n <- shape0 X ;;
           when verbose
             (emit (EvPrint "Clustering has not been performed. Plotting anyway.")) ;;;
           ret (repeat 0%Z n)
         else ret (nth (List.length (clusters obj) - 1) (clusters obj) [])) ;;
  emit EvClf ;;;
  scatter_loop E cl marker_size cluster_colors None (seq 0 (n_unique cl)) ;;;
  emit EvShow.

End CellPlot.
End Plotting.

(* ================================================================== *)
(** ** The vocabulary of the specification *)

Module Spec.
Import PyStr Pandas IO.

(** A raw count: a non-negative integer. *)
Definition is_count (v : value) : bool :=
  match v with
  | VInt z => (0 <=? z)%Z
  | _ => false
  end.

(** An integer of either sign. *)
Definition is_integer (v : value) : bool :=
  match v with
  | VInt _ => true
  | _ => false
  end.

(** A label with every double quote removed and all other characters
    kept in their order. *)
Definition remove_dquotes (s : string) : string :=
  of_chars (filter (fun c => negb (Ascii.eqb c dquote)) (chars s)).

Definition strip_label (v : value) : value :=
  match v with
  | VStr s => VStr (remove_dquotes s)
  | _ => v
  end.

Definition strip_row (r : Row) : Row :=
  {| label := strip_label (label r); cells := cells r |}.

Definition is_digit (c : ascii) : bool :=
  (48 <=? nat_of_ascii c) && (nat_of_ascii c <=? 57).

(** The control-probe pattern in words: the label starts with
    [ArrayControl-] in any mix of cases, and a digit follows. *)
Definition control_probe (s : string) : Prop :=
  exists p d rest,
    chars s = p ++ d :: rest
    /\ map lower p = chars "arraycontrol-"
    /\ is_digit d = true.

Definition is_control_label (v : value) : bool :=
  match v with
  | VStr s => Re.search true control_probe_re s
  | _ => false
  end.

(** The identifier of a row occurs exactly once among the row labels. *)
Definition occurs_once (t : DataFrame) (r : Row) : bool :=
  occurrences (label r) (index t) =? 1.

(** A label that line 80 keeps: a string that the control-probe pattern
    does not match. *)
Definition passes_control_filter (v : value) : bool :=
  match v with
  | VStr s => negb (Re.search true control_probe_re s)
  | _ => false
  end.

(** The rows that the duplicate filter keeps, and those that line 80
    keeps after it. *)
Definition unique_rows (t : DataFrame) : list Row :=
  filter (occurs_once t) (rows t).

Definition surviving_rows (t : DataFrame) : list Row :=
  filter (fun r => passes_control_filter (label r)) (unique_rows t).

(** The table after the duplicate filter. *)
Definition deduplicated (t : DataFrame) : DataFrame :=
  {| index_dtype := index_dtype t;
     rows := unique_rows t;
     columns_dtype := columns_dtype t;
     columns := columns t;
     dtypes := dtypes t |}.

(** The matrix of the dataset that a successful load of the oriented
    table [t] returns. *)
Definition loaded_table (t : DataFrame) : DataFrame :=
  {| index_dtype := object_;
     rows := map strip_row (surviving_rows t);
     columns_dtype := object_;
     columns := map strip_label (columns t);
     dtypes := dtypes t |}.

(** Every cell is of the dtype of its column. *)
Definition typed (t : DataFrame) : bool :=
  forallb (fun r => all_have_dtype (dtypes t) (cells r)) (rows t).

(** The values of the first column of a parsed table. *)
Definition first_column (df : DataFrame) : list value :=
  map (fun r => nth 0 (cells r) VNaN) (rows df).

(** [column_id] is one of the three modes. *)
Definition valid_mode (column_id : string) : bool :=
  existsb (String.eqb column_id) ["auto"; "yes"; "no"].

(** A line made of a first field and further fields, each after a run of
    separator characters, and the fields the separator [\s] reads on it:
    a run of [k] whitespace characters closes one field and opens [k-1]
    empty ones. *)
Definition line_of (f : list ascii) (more : list (list ascii * list ascii))
  : list ascii :=
  f ++ List.concat (map (fun wf => fst wf ++ snd wf) more).

Definition fields_single (f : list ascii)
  (more : list (list ascii * list ascii)) : list string :=
  of_chars f
    :: List.concat (map (fun wf => repeat EmptyString (List.length (fst wf) - 1)
                              ++ [of_chars (snd wf)]) more).

(** The fields when every run counts as one separator. *)
Definition fields_runs (f : list ascii)
  (more : list (list ascii * list ascii)) : list string :=
  of_chars f :: map (fun wf => of_chars (snd wf)) more.

(** A field: not empty, free of whitespace. *)
Definition is_field (f : list ascii) : bool :=
  negb (Nat.eqb (List.length f) 0) && forallb (fun c => negb (is_space c)) f.

(** A run of separators: not empty, whitespace only. *)
Definition is_run (ws : list ascii) : bool :=
  negb (Nat.eqb (List.length ws) 0) && forallb is_space ws.

(** The items of the pattern [\s]. *)
Definition single_space : list Re.item := [Re.Once Re.ASpace].

(** A line that starts with a character other than whitespace. *)
Definition starts_clean (l : list ascii) : Prop :=
  match l with
  | c :: _ => is_space c = false
  | [] => False
  end.

(** The items of a pattern that spells out the characters [p]. *)
Definition literal (p : list ascii) : list Re.item :=
  map (fun c => Re.Once (Re.AChar c)) p.

End Spec.

(* ================================================================== *)
(** ** Sample inputs *)

Module Samples.
Import PyStr Pandas IO.

Definition row (l : value) (c : list value) : Row := {| label := l; cells := c |}.

(** A frame as [read_csv] returns it for a file with a header: the
    default integer index and string column labels. *)
Definition parsed (cols : list string) (dts : list dtype)
  (body : list (list value)) : DataFrame :=
  {| index_dtype := int64;
     rows := map (fun ic => row (VInt (Z.of_nat (fst ic))) (snd ic))
                 (combine (seq 0 (List.length body)) body);
     columns_dtype := object_;
     columns := map VStr cols;
     dtypes := dts |}.

(** A world with one readable file for every path. *)
Definition world_with (df : DataFrame) : World :=
  {| path_exists := fun _ => true; read_csv := fun _ _ _ _ => inr df |}.

(** A world without any file. *)
Definition empty_world : World :=
  {| path_exists := fun _ => false;
     read_csv := fun _ _ _ _ => inl (Exception "no such file") |}.

Definition quoted (s : string) : string := (dq ++ s ++ dq)%string.

(** gene cell1 / GeneA -1 *)
Definition negative_table : DataFrame :=
  parsed ["gene"; "cell1"] [object_; int64] [[VStr "GeneA"; VInt (-1)]].

(** gene cell1 / GeneA 2.5 / GeneB 1.0 *)
Definition fractional_table : DataFrame :=
  parsed ["gene"; "cell1"] [object_; float64]
    [[VStr "GeneA"; VFloat (5 # 2)]; [VStr "GeneB"; VFloat (1 # 1)]].

(** gene cell1 / "GeneA" 1 / GeneA 2, the first label in literal quotes *)
Definition quoted_twin_table : DataFrame :=
  parsed ["gene"; "cell1"] [object_; int64]
    [[VStr (quoted "GeneA"); VInt 1]; [VStr "GeneA"; VInt 2]].

(** gene cell1 / "ArrayControl-3" 1 / GeneA 2 *)
Definition quoted_control_table : DataFrame :=
  parsed ["gene"; "cell1"] [object_; int64]
    [[VStr (quoted "ArrayControl-3"); VInt 1]; [VStr "GeneA"; VInt 2]].


(** gene cell1 / ArrayControl-7 1 / GeneA 2 *)
Definition control_once_table : DataFrame :=
  parsed ["gene"; "cell1"] [object_; int64]
    [[VStr "ArrayControl-7"; VInt 1]; [VStr "GeneA"; VInt 2]].

(** gene cell1 / NA 1 / GeneA 2: the first gene name is read as a
    missing value. *)
Definition missing_label_table : DataFrame :=
  parsed ["gene"; "cell1"] [object_; int64]
    [[VNaN; VInt 1]; [VStr "GeneA"; VInt 2]].

(** gene cell1 cell2 / Gapdh 1 2 / Gapdh 3 4 / Actin 5 6 *)
Definition gapdh_table : DataFrame :=
  parsed ["gene"; "cell1"; "cell2"] [object_; int64; int64]
    [[VStr "Gapdh"; VInt 1; VInt 2]; [VStr "Gapdh"; VInt 3; VInt 4];
     [VStr "Actin"; VInt 5; VInt 6]].

(** The file [cell1 cell2 / GeneA 3 4 / GeneB 5 1], whose header lacks a
    field for the gene column and has cell1 in literal quotes: [read_csv]
    takes the first field of every row as the index. *)
Definition labelled_table : DataFrame :=
  {| index_dtype := object_;
     rows := [row (VStr "GeneA") [VInt 3; VInt 4];
              row (VStr "GeneB") [VInt 5; VInt 1]];
     columns_dtype := object_;
     columns := [VStr (quoted "cell1"); VStr "cell2"];
     dtypes := [int64; int64] |}.

(** A two-dimensional embedding of three cells. *)
Definition tsne_embedding : DataFrame :=
  {| index_dtype := object_;
     rows := [row (VStr "c1") [VFloat (1 # 2); VFloat (3 # 2)];
              row (VStr "c2") [VFloat (2 # 1); VFloat (1 # 4)];
              row (VStr "c3") [VFloat (7 # 2); VFloat (9 # 2)]];
     columns_dtype := int64;
     columns := [VInt 0; VInt 1];
     dtypes := [float64; float64] |}.

(** A loaded dataset with a t-SNE embedding attached and no clustering. *)
Definition unclustered : dataset :=
  {| exp_mat := labelled_table; desc := "no desc set";
     output_filename := None; input_filename := "counts.txt";
     verbose := false;
     dr := [("tsne", tsne_embedding)];
     clusters := [] |}.

End Samples.

(* ================================================================== *)
(** ** adobo/plotting.py: the two bar plots *)

Module Barplots.
Import PyStr Pandas IO.

(** The calls into pyplot that the bar plots make. *)
Inductive plt_call : Type :=
| PltClf
| PltBar (x : list nat) (height : list Z) (color : list string)
| PltYLabel (s : string)
| PltXLabel (s : string)
| PltTitle (s : string)
| PltSavefig (filename bbox_inches : string)
| PltShow
| PltClose.

(** What ends a bar plot before it draws. *)
Inductive plot_error : Type :=
| TypeError (msg : string).

(** A 64-bit signed integer after an operation that overflowed. *)
Definition wrap64 (z : Z) : Z := ((z + 2 ^ 63) mod 2 ^ 64 - 2 ^ 63)%Z.

(** The cells of column [k], top to bottom. *)
Definition column (df : DataFrame) (k : nat) : list value :=
  map (fun r => nth k (cells r) VNaN) (rows df).

Definition column_numbers (df : DataFrame) : list nat :=
  seq 0 (List.length (columns df)).

(** The sum of an [int64] column, which wraps around.  [None] when a
    cell is not an integer: the sum of such a column is a float or not a
    number, and is outside this model. *)
Fixpoint int_sum (acc : Z) (vs : list value) : option Z :=
  match vs with
  | [] => Some acc
  | VInt z :: vs' => int_sum (wrap64 (acc + z)) vs'
  | _ :: _ => None
  end.

Fixpoint all_some {A} (l : list (option A)) : option (list A) :=
  match l with
  | [] => Some []
  | Some x :: l' => option_map (cons x) (all_some l')
  | None :: _ => None
  end.

(** [exp_mat.sum(axis=0)] *)
Definition sum_axis0 (df : DataFrame) : option (list Z) :=
  all_some (map (fun k => int_sum 0 (column df k)) (column_numbers df)).

(** [sorted(xs, reverse=True)] on integers: the descending arrangement. *)
Fixpoint insert_desc (x : Z) (l : list Z) : list Z :=
  match l with
  | [] => [x]
  | y :: l' => if (y <=? x)%Z then x :: l else y :: insert_desc x l'
  end.

Fixpoint sorted_reverse (l : list Z) : list Z :=
  match l with
  | [] => []
  | x :: l' => insert_desc x (sorted_reverse l')
  end.

(** The truth value of the argument [filename]: [None] and the empty
    string are false. *)
Definition truthy (filename : option string) : bool :=
  match filename with
  | Some s => negb (String.eqb s "")
  | None => false
  end.

(** The common end of both plots: the bars, the axis labels, the title,
    the file or the window, and [plt.close()]. *)
Definition draw_bars (heights : list Z) (barcolor : string)
  (ylabel : string) (filename : option string) (title : string)
  : list plt_call :=
  [ PltBar (seq 0 (List.length heights)) (sorted_reverse heights)
      (repeat barcolor (List.length heights));
    PltYLabel ylabel;
    PltXLabel "cells (sorted on highest to lowest)";
    PltTitle title ]
  ++ (match filename with
      | Some f => if String.eqb f "" then [PltShow] else [PltSavefig f "tight"]
      | None => [PltShow]
      end)
  ++ [PltClose].

(** Lines 16-49.  [None]: the matrix has a cell that is not an integer. *)
Definition barplot_reads_per_cell (obj : dataset) (barcolor : string)
  (filename : option string) (title : string) : option (list plt_call) :=
  match sum_axis0 (exp_mat obj) with
  | None => None
  | Some cell_counts =>
      Some (PltClf :: draw_bars cell_counts barcolor "raw read counts"
                        filename title)
  end.

(** [v > 0] for one cell. *)
Definition positive (v : value) : plot_error + bool :=
  match v with
  | VInt z => inr (0 <? z)%Z
  | VFloat q => inr (negb (Qle_bool q 0))
  | VNaN => inr false
  | VBool b => inr b
  | VStr _ =>
      inl (TypeError "'>' not supported between instances of 'str' and 'int'")
  end.

(** [sum(x > 0)] for one column. *)
Fixpoint count_positive (vs : list value) : plot_error + nat :=
  match vs with
  | [] => inr 0
  | v :: vs' =>
      match positive v, count_positive vs' with
      | inl e, _ => inl e
      | inr _, inl e => inl e
      | inr b, inr n => inr (if b then S n else n)
      end
  end.

Fixpoint all_right {E A} (l : list (E + A)) : E + list A :=
  match l with
  | [] => inr []
  | inl e :: _ => inl e
  | inr x :: l' =>
      match all_right l' with
      | inl e => inl e
      | inr xs => inr (x :: xs)
      end
  end.

(** [exp_mat.apply(lambda x: sum(x > 0), axis=0)] *)
Definition genes_expressed (df : DataFrame) : plot_error + list nat :=
  all_right (map (fun k => count_positive (column df k)) (column_numbers df)).

(** Lines 51-83. *)
Definition barplot_genes_per_cell (obj : dataset) (barcolor : string)
  (filename : option string) (title : string) : plot_error + list plt_call :=
  match genes_expressed (exp_mat obj) with
  | inl e => inl e
  | inr counts =>
      inr (PltClf :: draw_bars (map Z.of_nat counts) barcolor
                       "number of genes" filename title)
  end.

(** The calls that save to a file, and those that open a window. *)
Definition is_savefig (c : plt_call) : bool :=
  match c with PltSavefig _ _ => true | _ => false end.

Definition is_show (c : plt_call) : bool :=
  match c with PltShow => true | _ => false end.

Definition bar_heights (c : plt_call) : list Z :=
  match c with PltBar _ h _ => h | _ => [] end.

(** The total of a list of integers, without wrap-around. *)
Definition total (zs : list Z) : Z := fold_right Z.add 0%Z zs.

Definition int_of (v : value) : Z :=
  match v with VInt z => z | _ => 0%Z end.

End Barplots.

(* ================================================================== *)
(** ** Vocabulary for the further properties *)

Module Further.
Import PyStr Pandas IO Spec Plotting.

(** The number of cells with cluster label [i]. *)
Definition cluster_size (cl : list Z) (i : nat) : nat :=
  List.length (filter (Z.eqb (Z.of_nat i)) cl).

(** The scatter calls for the clusters [a], [a+1], ..., [a+n-1], drawn in
    the default colours. *)
Definition scatters (colors : list string) (cl : list Z) (a n : nat)
  : list event :=
  map (fun i => EvScatter (cluster_size cl i) (nth i colors "")) (seq a n).

(** The number of points that the scatter calls of a trace draw. *)
Fixpoint points_drawn (tr : list event) : nat :=
  match tr with
  | [] => 0
  | EvScatter n _ :: tr' => n + points_drawn tr'
  | _ :: tr' => points_drawn tr'
  end.

(** The cells whose cluster label is one of 0, ..., [k-1]. *)
Definition labelled_below (k : nat) (cl : list Z) : list Z :=
  filter (fun z => (0 <=? z)%Z && (z <? Z.of_nat k)%Z) cl.

(** The cluster assignment that [cell_plot] reads: the last one. *)
Definition latest_clustering (obj : dataset) : list Z :=
  nth (List.length (clusters obj) - 1) (clusters obj) [].

(** A dataset with a t-SNE embedding of three cells and two clusterings,
    the later one with the clusters 0 and 1. *)
Definition clustered : dataset :=
  {| exp_mat := Samples.labelled_table; desc := "no desc set";
     output_filename := None; input_filename := "counts.txt";
     verbose := false;
     dr := [("tsne", Samples.tsne_embedding)];
     clusters := [[0; 0; 0]; [0; 1; 0]]%Z |}.

(** A cell that counts as an expressed gene: a positive number. *)
Definition expressed (v : value) : bool :=
  match v with
  | VInt z => (0 <? z)%Z
  | VFloat q => negb (Qle_bool q 0)
  | VBool b => b
  | _ => false
  end.

Definition is_text (v : value) : bool :=
  match v with VStr _ => true | _ => false end.

(** An event that is a [print]. *)
Definition is_print (ev : event) : bool :=
  match ev with EvPrint _ => true | _ => false end.

(** The line that reports removed duplicates, when there are any. *)
Definition duplicates_line (t : DataFrame) : list event :=
  if np_any (duplicated (index t))
  then [EvPrint (str_of_nat (List.length (rows t)
                             - List.length (unique_rows t))
                   ++ " duplicated genes detected and removed.")]
  else [].

Definition comma : ascii := ","%char.

Definition without_commas (s : string) : list ascii :=
  filter (fun c => negb (Ascii.eqb c comma)) (chars s).

Definition count_commas (s : string) : nat :=
  List.length (filter (fun c => Ascii.eqb c comma) (chars s)).

(** The labels of a list of values are all strings. *)
Definition all_strings (l : list value) : Prop :=
  forall v, In v l -> exists s, v = VStr s.

(** A run that has printed the summary line of the dataset it returns
    when [verbose] is set, and nothing otherwise. *)
Definition prints_summary (verbose : bool) (k : M dataset) : Prop :=
  trace k
  = match outcome k with
    | inr ds => if verbose then [EvPrint (summary_line (exp_mat ds))] else []
    | inl _ => []
    end.

(** Further sample tables.  [gapdh_oriented] is [Samples.gapdh_table]
    with its gene column as the index; [integer_table] is the file
    [a b / 1 3 / 2 5] with the default integer index; [no_column_table]
    has an index and no column. *)
Definition gapdh_oriented : DataFrame :=
  {| index_dtype := object_;
     rows := [Samples.row (VStr "Gapdh") [VInt 1; VInt 2];
              Samples.row (VStr "Gapdh") [VInt 3; VInt 4];
              Samples.row (VStr "Actin") [VInt 5; VInt 6]];
     columns_dtype := object_;
     columns := [VStr "cell1"; VStr "cell2"];
     dtypes := [int64; int64] |}.

(** [Samples.missing_label_table] with its gene column as the index. *)
Definition missing_label_oriented : DataFrame :=
  {| index_dtype := object_;
     rows := [Samples.row VNaN [VInt 1];
              Samples.row (VStr "GeneA") [VInt 2]];
     columns_dtype := object_;
     columns := [VStr "cell1"];
     dtypes := [int64] |}.

Definition integer_table : DataFrame :=
  Samples.parsed ["a"; "b"] [int64; int64]
    [[VInt 1; VInt 3]; [VInt 2; VInt 5]].

Definition no_column_table : DataFrame :=
  {| index_dtype := object_;
     rows := [Samples.row (VStr "GeneA") []];
     columns_dtype := object_;
     columns := [];
     dtypes := [] |}.

(** ASCII [str.lower] on a string. *)
Definition lowercase (s : string) : string := of_chars (map lower (chars s)).

(** An integer that fits 64 bits. *)
Definition in_int64 (z : Z) : Prop := (- 2 ^ 63 <= z < 2 ^ 63)%Z.

End Further.

(* ================================================================== *)
(** ** Laws of the monad *)

Section MonadLaws.
Context {A B : Type}.

Lemma outcome_bind (m : M A) (f : A -> M B) :
  outcome (bind m f)
  = match outcome m with
    | inl e => inl e
    | inr a => outcome (f a)
    end.
Proof.
  destruct m as [t [e | a]]; simpl; [reflexivity |].
  destruct (f a); reflexivity.
Qed.

Lemma trace_bind (m : M A) (f : A -> M B) :
  trace (bind m f)
  = trace m ++ match outcome m with
               | inl _ => []
               | inr a => trace (f a)
               end.
Proof.
  destruct m as [t [e | a]]; simpl; [now rewrite app_nil_r |].
  destruct (f a); reflexivity.
Qed.

Lemma bind_ret (a : A) (f : A -> M B) : bind (ret a) f = f a.
Proof. unfold bind, ret. destruct (f a); reflexivity. Qed.

Lemma bind_raise (e : exn) (f : A -> M B) : bind (raise e) f = raise e.
Proof. reflexivity. Qed.

Lemma bind_emit (ev : event) (k : unit -> M B) :
  bind (emit ev) k = (ev :: trace (k tt), outcome (k tt)).
Proof. unfold bind, emit. destruct (k tt); reflexivity. Qed.

End MonadLaws.

Lemma M_eta {A} (m : M A) : m = (trace m, outcome m).
Proof. destruct m; reflexivity. Qed.

(* ================================================================== *)
(** ** The existence check comes first *)

Module ExistenceCheck.
Import PyStr Pandas IO Samples.

(** C6.  When the path does not exist, [load_from_file] ends with the
    file-not-found exception, and the only thing it has done by then is
    the existence test: nothing was read or parsed. *)
Theorem missing_path_fails_first
  (w : World) (filename sep : string) (header : option Z)
  (column_id : string) (verbose : bool) (desc : string)
  (output_filename input_filename : option string) (args : kwargs) :
  path_exists w filename = false ->
  let run := load_from_file w filename sep header column_id verbose desc
               output_filename input_filename args in
  outcome run = inl (FileNotFound filename)
  /\ trace run = [EvExists filename]
  /\ (forall p d, ~ In (EvReadCsv p d) (trace run)).
Proof.
  intros Hmiss run.
  assert (Hrun : run = ([EvExists filename], inl (FileNotFound filename))).
  { unfold run, load_from_file. rewrite Hmiss. reflexivity. }
  rewrite Hrun. simpl. repeat split.
  intros p d [H | []]. discriminate H.
Qed.

Lemma missing_path_fails_first_witness :
  path_exists empty_world "counts.txt" = false
  /\ outcome (load_with_defaults empty_world "counts.txt")
     = inl (Exception "counts.txt not found").
Proof.
  split; [reflexivity |].
  apply (missing_path_fails_first empty_world "counts.txt" default_sep
           (Some 0%Z) "auto" false "no desc set" None None []).
  reflexivity.
Defined.

End ExistenceCheck.

(* ================================================================== *)
(** ** Facts about the pandas operations *)

Module PandasFacts.
Import PyStr Pandas.

Lemma value_eqb_refl (v : value) : value_eqb v v = true.
Proof.
  destruct v; simpl.
  - apply Z.eqb_refl.
  - apply Qeq_bool_iff. reflexivity.
  - reflexivity.
  - apply String.eqb_refl.
  - destruct b; reflexivity.
Qed.

Lemma mask_select_map {A} (f : A -> bool) (l : list A) :
  mask_select (map f l) l = filter f l.
Proof.
  induction l as [| x l IH]; simpl; [reflexivity |].
  destruct (f x); now rewrite IH.
Qed.

Lemma mask_select_In {A} (m : list bool) (l : list A) (x : A) :
  In x (mask_select m l) -> In x l.
Proof.
  revert m. induction l as [| y l IH]; intros [| b m]; simpl; try tauto.
  destruct b; simpl; intros H.
  - destruct H as [H | H]; [now left | right; eauto].
  - right; eauto.
Qed.

Lemma occurrences_In (v : value) (l : list value) :
  In v l -> 1 <= occurrences v l.
Proof.
  unfold occurrences.
  induction l as [| x l IH]; simpl; [tauto |].
  intros [-> | H].
  - rewrite value_eqb_refl. simpl. lia.
  - destruct (value_eqb v x); simpl; [lia | auto].
Qed.

(** The mask of line 74 keeps exactly the rows whose label occurs once. *)
Lemma not_duplicated_mask (rs : list Row) :
  mask_select (np_logical_not (duplicated (map label rs))) rs
  = filter (fun r => occurrences (label r) (map label rs) =? 1) rs.
Proof.
  unfold np_logical_not, duplicated.
  rewrite !map_map, mask_select_map.
  apply filter_ext_in. intros r Hr.
  assert (H : 1 <= occurrences (label r) (map label rs))
    by (apply occurrences_In, in_map, Hr).
  destruct (Nat.ltb_spec 1 (occurrences (label r) (map label rs)));
    destruct (Nat.eqb_spec (occurrences (label r) (map label rs)) 1);
    simpl; try reflexivity; lia.
Qed.

(** When nothing is duplicated, every label occurs once. *)
Lemma no_duplicates_all_once (l : list value) :
  np_any (duplicated l) = false ->
  forall v, In v l -> occurrences v l = 1.
Proof.
  unfold np_any, duplicated. intros H v Hv.
  assert (Hlt : (1 <? occurrences v l) = false).
  { destruct (1 <? occurrences v l) eqn:E; [| reflexivity].
    assert (Hex : existsb id (map (fun v => 1 <? occurrences v l) l) = true).
    { apply existsb_exists. exists true. split; [| reflexivity].
      apply in_map_iff. exists v. split; assumption. }
    rewrite Hex in H. discriminate H. }
  apply Nat.ltb_ge in Hlt. pose proof (occurrences_In v l Hv). lia.
Qed.

Lemma np_any_duplicated (l : list value) :
  np_any (duplicated l) = true <->
  exists v, In v l /\ 2 <= occurrences v l.
Proof.
  unfold np_any, duplicated. rewrite existsb_exists. split.
  - intros [b [Hb Hid]]. apply in_map_iff in Hb as [v [Hv Hin]].
    exists v. split; [assumption |].
    unfold id in Hid. subst b. apply Nat.ltb_lt in Hid. lia.
  - intros [v [Hin Hocc]]. exists true. split; [| reflexivity].
    apply in_map_iff. exists v. split; [| assumption].
    apply Nat.ltb_lt. lia.
Qed.

(** [np.sum(dups)] is the number of rows the mask removes. *)
Lemma np_sum_duplicated (rs : list Row) :
  np_sum (duplicated (map label rs))
  = List.length rs
    - List.length (filter (fun r => occurrences (label r) (map label rs) =? 1) rs).
Proof.
  unfold np_sum, duplicated. rewrite map_map.
  set (idx := map label rs).
  assert (Hin : forall r, In r rs -> In (label r) idx)
    by (intros r Hr; apply in_map, Hr).
  clearbody idx. induction rs as [| r rs IH]; [reflexivity |].
  cbn [map filter].
  assert (H1 : 1 <= occurrences (label r) idx)
    by (apply occurrences_In, Hin; now left).
  assert (IH' := IH (fun x Hx => Hin x (or_intror Hx))).
  pose proof (filter_length_le
                (fun r => occurrences (label r) idx =? 1) rs) as Hle.
  destruct (Nat.ltb_spec 1 (occurrences (label r) idx));
    destruct (Nat.eqb_spec (occurrences (label r) idx) 1);
    unfold id at 1; cbn [List.length]; lia.
Qed.

Lemma strings_of_Some (l : list value) (ss : list string) :
  strings_of l = Some ss -> l = map VStr ss.
Proof.
  revert ss. induction l as [| v l IH]; simpl; intros ss H.
  - now inversion H.
  - destruct v; try discriminate.
    destruct (strings_of l) as [ss' |]; simpl in H; [| discriminate].
    inversion H; subst. simpl. f_equal. now apply IH.
Qed.

Lemma strings_of_map_VStr (ss : list string) :
  strings_of (map VStr ss) = Some ss.
Proof.
  induction ss as [| s ss IH]; simpl; [reflexivity |].
  now rewrite IH.
Qed.

Lemma strings_of_filter (f : value -> bool) (l : list value) (ss : list string) :
  strings_of l = Some ss ->
  exists ss', strings_of (filter f l) = Some ss'.
Proof.
  intros H. apply strings_of_Some in H. subst l.
  induction ss as [| s ss [ss' IH]]; simpl.
  - now exists [].
  - destruct (f (VStr s)); simpl.
    + rewrite IH. now exists (s :: ss').
    + now exists ss'.
Qed.

Lemma labels_of_Some (l : list value) (ls : list (option string)) :
  labels_of l = Some ls -> l = map label_of ls.
Proof.
  revert ls. induction l as [| v l IH]; simpl; intros ls H.
  - now inversion H.
  - destruct v; try discriminate;
      (destruct (labels_of l) as [ls' |]; simpl in H; [| discriminate]);
      inversion H; subst; simpl; f_equal; now apply IH.
Qed.

Lemma labels_of_map_VStr (ss : list string) :
  labels_of (map VStr ss) = Some (map Some ss).
Proof.
  induction ss as [| s ss IH]; simpl; [reflexivity |].
  now rewrite IH.
Qed.

Lemma str_accessor_inr (d : dtype) (l : list value)
  (ls : list (option string)) :
  str_accessor d l = inr ls -> d = object_ /\ l = map label_of ls.
Proof.
  unfold str_accessor. destruct d; try discriminate.
  destruct (labels_of l) eqn:E; [| discriminate].
  intros H. inversion H; subst. split; [reflexivity |].
  now apply labels_of_Some.
Qed.

Lemma columns_str_accessor_inr (d : dtype) (l : list value)
  (ss : list string) :
  columns_str_accessor d l = inr ss -> d = object_ /\ l = map VStr ss.
Proof.
  unfold columns_str_accessor. destruct d; try discriminate.
  destruct (strings_of l) eqn:E; [| discriminate].
  intros H. inversion H; subst. split; [reflexivity |].
  now apply strings_of_Some.
Qed.

(** Replacing the double quote by the empty string removes the double
    quotes and nothing else. *)
Lemma replace_from_dquote (l : list ascii) :
  replace_from [dquote] [] 0 l
  = filter (fun c => negb (Ascii.eqb c dquote)) l.
Proof.
  induction l as [| c l IH]; [reflexivity |].
  cbn [replace_from is_prefix filter List.length Nat.pred app].
  rewrite andb_true_r, (Ascii.eqb_sym dquote c).
  destruct (Ascii.eqb c dquote); cbn [negb]; now rewrite IH.
Qed.

End PandasFacts.

(* ================================================================== *)
(** ** The stages of the loader *)

Module LoaderFacts.
Import PyStr Pandas IO Spec PandasFacts.

Lemma replace_dquote (s : string) : replace dq "" s = remove_dquotes s.
Proof.
  unfold replace, remove_dquotes. cbn [dq chars list_ascii_of_string].
  now rewrite replace_from_dquote.
Qed.

Lemma unique_rows_all (t : DataFrame) :
  np_any (duplicated (index t)) = false -> unique_rows t = rows t.
Proof.
  intros H. unfold unique_rows. apply forallb_filter_id.
  apply forallb_forall. intros r Hr. unfold occurs_once.
  rewrite (no_duplicates_all_once _ H); [reflexivity |].
  apply in_map, Hr.
Qed.

Lemma remove_duplicates_outcome (verbose : bool) (t : DataFrame) :
  outcome (remove_duplicates verbose t) = inr (deduplicated t).
Proof.
  unfold remove_duplicates, deduplicated.
  destruct (np_any (duplicated (index t))) eqn:E.
  - rewrite outcome_bind. destruct verbose; cbn [when outcome emit ret snd];
      unfold select_rows, index; now rewrite not_duplicated_mask.
  - rewrite (unique_rows_all _ E). now destruct t.
Qed.

Lemma remove_duplicates_trace (verbose : bool) (t : DataFrame) :
  trace (remove_duplicates verbose t)
  = if np_any (duplicated (index t)) && verbose
    then [EvPrint (str_of_nat (List.length (rows t)
                               - List.length (unique_rows t))
                     ++ " duplicated genes detected and removed.")]
    else [].
Proof.
  unfold remove_duplicates.
  destruct (np_any (duplicated (index t))); [| reflexivity].
  rewrite trace_bind. destruct verbose; [| reflexivity].
  cbn [andb when trace emit fst outcome snd ret app].
  unfold index. now rewrite np_sum_duplicated.
Qed.

Lemma check_counts_outcome (t : DataFrame) :
  outcome (check_counts t)
  = if forallb (fun d => dtype_eqb d int64) (dtypes t)
    then inr tt else inl NonCountData.
Proof.
  unfold check_counts, np_any.
  assert (H : existsb id (map (fun d => negb (dtype_eqb d int64)) (dtypes t))
              = negb (forallb (fun d => dtype_eqb d int64) (dtypes t))).
  { induction (dtypes t) as [| d ds IH]; simpl; [reflexivity |].
    rewrite IH. unfold id. now destruct (dtype_eqb d int64). }
  rewrite H. now destruct (forallb _ _).
Qed.

Lemma check_counts_trace (t : DataFrame) : trace (check_counts t) = [].
Proof. unfold check_counts. now destruct (np_any _). Qed.

(** The mask of line 80 on an index of text. *)
Lemma control_mask (rs : list Row) (labels : list (option string)) :
  map label rs = map label_of labels ->
  mask_select
    (np_logical_not_object
       (map (option_map (Re.search true control_probe_re)) labels)) rs
  = filter (fun r => passes_control_filter (label r)) rs.
Proof.
  revert labels. induction rs as [| r rs IH]; intros [| o ls] H;
    try discriminate; [reflexivity |].
  inversion H as [[Hr Hrs]].
  cbn [np_logical_not_object map mask_select filter].
  unfold np_logical_not_object in IH. rewrite (IH _ Hrs), Hr.
  destruct o; reflexivity.
Qed.

(** Line 81 on an index of strings. *)
Lemma set_index_rows (rs : list Row) (labels : list string) :
  map label rs = map VStr labels ->
  map (fun lr => {| label := label_of (fst lr); cells := cells (snd lr) |})
      (combine (map (option_map (replace dq "")) (map Some labels)) rs)
  = map strip_row rs.
Proof.
  revert labels. induction rs as [| r rs IH]; intros [| s ss] H;
    try discriminate; [reflexivity |].
  inversion H as [[Hr Hrs]]. cbn [map combine fst snd option_map label_of].
  rewrite (IH _ Hrs). unfold strip_row at 2. rewrite Hr.
  cbn [strip_label]. now rewrite replace_dquote.
Qed.

Lemma strip_columns (cols : list value) (ss : list string) :
  cols = map VStr ss ->
  map VStr (map (replace dq "") ss) = map strip_label cols.
Proof.
  intros ->. rewrite !map_map. apply map_ext. intros s.
  cbn [strip_label]. now rewrite replace_dquote.
Qed.

Section Load.
Variables (w : World) (filename sep : string) (header : option Z)
  (column_id : string) (verbose : bool) (desc : string)
  (output_filename input_filename : option string) (args : kwargs).
Variables df t : DataFrame.
Hypothesis Hexists : path_exists w filename = true.
Hypothesis Hmode : valid_mode column_id = true.
Hypothesis Hread : read_csv w filename sep header args = inr df.
Hypothesis Horient : resolve_column_id column_id df = inr t.

Lemma surviving_strings :
  exists ss, map label (surviving_rows t) = map VStr ss.
Proof.
  unfold surviving_rows.
  induction (unique_rows t) as [| r rs [ss IH]]; [now exists [] |].
  cbn [filter]. destruct (label r) as [| | | s |] eqn:Hl;
    cbn [passes_control_filter]; try (now exists ss).
  destruct (negb _); [| now exists ss].
  exists (s :: ss). cbn [map]. now rewrite Hl, IH.
Qed.

(** How a load ends once the table is read and oriented. *)
Lemma load_outcome :
  outcome (load_from_file w filename sep header column_id verbose desc
             output_filename input_filename args)
  = if forallb (fun d => dtype_eqb d int64) (dtypes t) then
      match str_accessor (index_dtype t) (map label (unique_rows t)) with
      | inl e => inl e
      | inr _ =>
          match columns_str_accessor (columns_dtype t) (columns t) with
          | inl e => inl e
          | inr _ =>
              inr (new_dataset (loaded_table t) desc output_filename
                     filename verbose)
          end
      end
    else inl NonCountData.
Proof.
  unfold load_from_file.
  rewrite bind_emit. cbn [outcome snd].
  rewrite Hexists. cbn [negb]. rewrite bind_ret.
  fold (valid_mode column_id). rewrite Hmode. cbn [negb].
  rewrite bind_ret, bind_emit. cbn [outcome snd].
  rewrite Hread. change (lift (inr df)) with (ret df). rewrite bind_ret.
  rewrite Horient. change (lift (inr t)) with (ret t). rewrite bind_ret.
  rewrite outcome_bind, remove_duplicates_outcome.
  rewrite outcome_bind, check_counts_outcome.
  cbn [deduplicated dtypes].
  destruct (forallb _ (dtypes t)); [| reflexivity].
  rewrite outcome_bind. unfold remove_control_probes.
  rewrite outcome_bind. cbn [deduplicated index_dtype]. unfold index.
  cbn [rows deduplicated].
  destruct (str_accessor (index_dtype t) (map label (unique_rows t)))
    as [e | labels] eqn:Hidx; [reflexivity |].
  cbn [lift outcome snd ret].
  apply str_accessor_inr in Hidx as [Hobj Hlabels].
  unfold select_rows at 1.
  cbn [deduplicated rows index_dtype columns_dtype columns dtypes].
  rewrite (control_mask _ _ Hlabels).
  fold (surviving_rows t).
  destruct surviving_strings as [ss Hss].
  rewrite outcome_bind. unfold strip_quotes.
  rewrite outcome_bind. unfold index. cbn [index_dtype rows].
  rewrite Hobj, Hss. unfold str_accessor at 1.
  rewrite labels_of_map_VStr. cbn [lift outcome snd].
  rewrite outcome_bind.
  cbn [set_index columns_dtype columns].
  destruct (columns_str_accessor (columns_dtype t) (columns t))
    as [e | cols] eqn:Hcols; [reflexivity |].
  cbn [lift outcome snd ret].
  apply columns_str_accessor_inr in Hcols as [_ Hcols].
  rewrite outcome_bind.
  destruct verbose; cbn [when outcome emit ret snd];
    unfold new_dataset, set_columns, loaded_table;
    cbn [set_index index_dtype rows dtypes];
    rewrite (set_index_rows _ _ Hss), (strip_columns _ _ Hcols);
    reflexivity.
Qed.

(** What a load has done by the time the duplicate filter has run. *)
Lemma load_trace :
  exists rest,
    trace (load_from_file w filename sep header column_id verbose desc
             output_filename input_filename args)
    = EvExists filename :: EvReadCsv filename sep
        :: trace (remove_duplicates verbose t) ++ rest.
Proof.
  unfold load_from_file.
  rewrite bind_emit. cbn [trace fst].
  rewrite Hexists. cbn [negb]. rewrite bind_ret.
  fold (valid_mode column_id). rewrite Hmode. cbn [negb].
  rewrite bind_ret, bind_emit. cbn [trace fst].
  rewrite Hread. change (lift (inr df)) with (ret df). rewrite bind_ret.
  rewrite Horient. change (lift (inr t)) with (ret t). rewrite bind_ret.
  rewrite trace_bind. eexists. reflexivity.
Qed.

End Load.

(** *** Typing of the cells *)

Lemma wf_typed (df : DataFrame) : wf_frame df = true -> typed df = true.
Proof.
  unfold wf_frame, typed. intros H.
  apply andb_prop in H as [H _]. apply andb_prop in H as [H _].
  apply andb_prop in H as [_ H].
  rewrite forallb_forall in *. intros r Hr.
  specialize (H r Hr). now apply andb_prop in H as [_ H].
Qed.

Lemma all_have_dtype_mask (m : list bool) (ds : list dtype) (vs : list value) :
  all_have_dtype ds vs = true ->
  all_have_dtype (mask_select m ds) (mask_select m vs) = true.
Proof.
  revert ds vs. induction m as [| b m IH]; intros [| d ds] [| v vs] H;
    try reflexivity; try discriminate.
  cbn [all_have_dtype] in H. apply andb_prop in H as [Hd H].
  cbn [mask_select]. destruct b; [cbn [all_have_dtype]; rewrite Hd |];
    now apply IH.
Qed.

Lemma move_col_typed (x t : DataFrame) :
  typed x = true -> move_col x = inr t -> typed t = true.
Proof.
  unfold move_col, typed. intros H Hm.
  destruct (columns x) as [| c0 cs]; [discriminate |].
  inversion Hm; subst t; clear Hm.
  cbn [drop_column rows dtypes columns]. rewrite forallb_forall in *.
  intros r Hr. apply in_map_iff in Hr as [r0 [<- Hr0]].
  apply in_map_iff in Hr0 as [r1 [<- Hr1]]. cbn [cells].
  apply all_have_dtype_mask, H, Hr1.
Qed.

Lemma resolve_typed (column_id : string) (df t : DataFrame) :
  typed df = true -> resolve_column_id column_id df = inr t -> typed t = true.
Proof.
  unfold resolve_column_id. intros H Hr.
  destruct (String.eqb column_id "auto").
  - destruct (columns df); [discriminate |].
    destruct (negb _); [now apply (move_col_typed df) |].
    now inversion Hr; subst.
  - destruct (String.eqb column_id "yes"); [now apply (move_col_typed df) |].
    now inversion Hr; subst.
Qed.

Lemma int64_cells (ds : list dtype) (vs : list value) (v : value) :
  all_have_dtype ds vs = true ->
  forallb (fun d => dtype_eqb d int64) ds = true ->
  In v vs -> is_integer v = true.
Proof.
  revert vs. induction ds as [| d ds IH]; intros [| x vs] H Hall Hin;
    try discriminate; [destruct Hin |].
  cbn [all_have_dtype forallb] in *.
  apply andb_prop in H as [Hd H]. apply andb_prop in Hall as [Hi Hall].
  destruct Hin as [-> | Hin]; [| now apply (IH vs)].
  destruct d; try discriminate. now destruct v.
Qed.

(** A cell that is not an integer makes the dtype test of line 77 fire. *)
Lemma non_integer_cell (t : DataFrame) (r : Row) (v : value) :
  typed t = true -> In r (rows t) -> In v (cells r) ->
  is_integer v = false ->
  forallb (fun d => dtype_eqb d int64) (dtypes t) = false.
Proof.
  intros Ht Hr Hv Hni.
  destruct (forallb _ (dtypes t)) eqn:E; [| reflexivity].
  unfold typed in Ht. rewrite forallb_forall in Ht.
  rewrite (int64_cells _ _ v (Ht r Hr) E Hv) in Hni. discriminate.
Qed.

End LoaderFacts.

(* ================================================================== *)
(** ** Count validation *)

Module CountValidation.
Import PyStr Pandas IO Spec Samples PandasFacts LoaderFacts.

Lemma surviving_rows_In (t : DataFrame) (r : Row) :
  In r (surviving_rows t) ->
  In r (rows t) /\ occurs_once t r = true /\ is_control_label (label r) = false.
Proof.
  unfold surviving_rows, unique_rows. intros H.
  apply filter_In in H as [H Hc]. apply filter_In in H as [H Ho].
  repeat split; try assumption.
  destruct (label r); cbn [passes_control_filter is_control_label] in *;
    try reflexivity.
  now destruct (Re.search true control_probe_re s).
Qed.

Section Validation.
Variables (w : World) (filename sep : string) (header : option Z)
  (column_id : string) (verbose : bool) (desc : string)
  (output_filename input_filename : option string) (args : kwargs).
Variables df t : DataFrame.
Hypothesis Hexists : path_exists w filename = true.
Hypothesis Hmode : valid_mode column_id = true.
Hypothesis Hread : read_csv w filename sep header args = inr df.
Hypothesis Hwf : wf_frame df = true.
Hypothesis Horient : resolve_column_id column_id df = inr t.

(** A cell that is not an integer, in any row of the oriented table,
    ends the load with the non-count exception. *)
Lemma non_integer_anywhere (r : Row) (v : value) :
  In r (rows t) -> In v (cells r) -> is_integer v = false ->
  outcome (load_from_file w filename sep header column_id verbose desc
             output_filename input_filename args)
  = inl NonCountData.
Proof.
  intros Hr Hv Hni.
  rewrite (load_outcome _ _ _ _ _ _ _ _ _ _ df t Hexists Hmode Hread Horient).
  rewrite (non_integer_cell t r v); try assumption; [reflexivity |].
  apply (resolve_typed column_id df); [now apply wf_typed | assumption].
Qed.

(** C1, as amended.  If, after the first column is resolved and the rows
    are filtered, the table still holds a value that is not an integer (a
    fraction, a missing value, text), [load_from_file] ends with the
    non-count exception and returns no dataset.  Negative integers are
    not covered: the validation looks at the dtype of the columns only. *)
Theorem non_integer_value_fails (r : Row) (v : value) :
  In r (surviving_rows t) -> In v (cells r) -> is_integer v = false ->
  outcome (load_from_file w filename sep header column_id verbose desc
             output_filename input_filename args)
  = inl NonCountData.
Proof.
  intros Hr. apply surviving_rows_In in Hr as [Hr _].
  now apply non_integer_anywhere.
Qed.


End Validation.

(** The table [gene cell1 / GeneA 2.5 / GeneB 1.0] is refused. *)
Lemma non_integer_value_fails_witness :
  outcome (load_with_defaults (world_with fractional_table) "counts.txt")
  = inl NonCountData.
Proof.
  unfold load_with_defaults.
  eapply (non_integer_value_fails (world_with fractional_table) "counts.txt"
            default_sep (Some 0%Z) "auto" false "no desc set" None None []
            fractional_table _ eq_refl eq_refl eq_refl eq_refl eq_refl
            (row (VStr "GeneA") [VFloat (5 # 2)]) (VFloat (5 # 2))).
  - vm_compute. left. reflexivity.
  - simpl. left. reflexivity.
  - reflexivity.
Defined.


(** C1 as stated fails: the table [gene cell1 / GeneA -1] keeps, after
    orientation and filtering, the value -1, which is not a count, and it
    is loaded. *)
Lemma negative_count_is_loaded :
  wf_frame negative_table = true
  /\ exists t r v ds,
       resolve_column_id "auto" negative_table = inr t
       /\ In r (surviving_rows t) /\ In v (cells r) /\ is_count v = false
       /\ outcome (load_with_defaults (world_with negative_table) "counts.txt")
          = inr ds
       /\ rows (exp_mat ds) = [row (VStr "GeneA") [VInt (-1)]].
Proof.
  split; [reflexivity |].
  eexists. exists (row (VStr "GeneA") [VInt (-1)]), (VInt (-1)). eexists.
  split; [vm_compute; reflexivity |].
  split; [vm_compute; left; reflexivity |].
  split; [left; reflexivity |].
  split; [reflexivity |].
  split; vm_compute; reflexivity.
Qed.


End CountValidation.

(* ================================================================== *)
(** ** The default separator *)

Module Separator.
Import PyStr Pandas IO Spec.

Lemma default_sep_compiled :
  Re.compile default_sep = Some (Re.Build_pattern false single_space).
Proof. reflexivity. Qed.

Lemma chars_of_chars (l : list ascii) : chars (of_chars l) = l.
Proof. apply list_ascii_of_string_of_list_ascii. Qed.

(** *** [strip] leaves a line alone that neither starts nor ends with
    whitespace *)

Lemma lstrip_clean (l : list ascii) : starts_clean l -> lstrip l = l.
Proof. destruct l as [| c l]; simpl; [easy |]. now intros ->. Qed.

Lemma strip_clean (l : list ascii) :
  starts_clean l -> starts_clean (rev l) -> strip l = l.
Proof.
  intros H1 H2. unfold strip.
  now rewrite (lstrip_clean l H1), (lstrip_clean _ H2), rev_involutive.
Qed.

Lemma starts_clean_app (a b : list ascii) :
  starts_clean a -> starts_clean (a ++ b).
Proof. destruct a; simpl; easy. Qed.

Lemma field_starts_clean (f : list ascii) :
  is_field f = true -> starts_clean f /\ starts_clean (rev f).
Proof.
  unfold is_field. intros H. apply andb_prop in H as [Hne Hall].
  assert (Hrev : forallb (fun c => negb (is_space c)) (rev f) = true).
  { rewrite forallb_forall in *. intros c Hc. apply Hall, in_rev, Hc. }
  assert (Hlen : List.length (rev f) = List.length f) by apply length_rev.
  split.
  - destruct f as [| c f]; [discriminate |]. simpl in *.
    apply andb_prop in Hall as [Hc _]. now destruct (is_space c).
  - destruct (rev f) as [| c l]; [destruct f; discriminate |]. simpl in *.
    apply andb_prop in Hrev as [Hc _]. now destruct (is_space c).
Qed.

Lemma line_ends_clean (f : list ascii) (more : list (list ascii * list ascii)) :
  is_field f = true ->
  forallb (fun wf => is_run (fst wf) && is_field (snd wf)) more = true ->
  starts_clean (rev (line_of f more)).
Proof.
  revert f. induction more as [| [ws g] more IH]; intros f Hf Hmore.
  - unfold line_of. simpl. rewrite app_nil_r. now apply field_starts_clean.
  - cbn [forallb fst snd] in Hmore.
    apply andb_prop in Hmore as [Hwg Hmore]. apply andb_prop in Hwg as [_ Hg].
    specialize (IH g Hg Hmore).
    unfold line_of in *. cbn [map List.concat fst snd].
    set (tl := List.concat (map (fun wf => fst wf ++ snd wf) more)) in *.
    replace (f ++ (ws ++ g) ++ tl) with ((f ++ ws) ++ (g ++ tl))
      by now rewrite <- !app_assoc.
    rewrite rev_app_distr. now apply starts_clean_app.
Qed.

(** *** Splitting on one whitespace character *)

Lemma split_field (f cur rest : list ascii) :
  forallb (fun c => negb (is_space c)) f = true ->
  Re.split_from single_space 0 cur (f ++ rest)
  = Re.split_from single_space 0 (rev f ++ cur) rest.
Proof.
  revert cur. induction f as [| c f IH]; intros cur H; [reflexivity |].
  cbn [forallb] in H. apply andb_prop in H as [Hc H].
  cbn [app Re.split_from single_space Re.match_here Re.atom_matches].
  destruct (is_space c); [discriminate |].
  rewrite (IH _ H). cbn [rev]. now rewrite <- app_assoc.
Qed.

Lemma split_space (c : ascii) (cur rest : list ascii) :
  is_space c = true ->
  Re.split_from single_space 0 cur (c :: rest)
  = of_chars (rev cur) :: Re.split_from single_space 0 [] rest.
Proof.
  intros H.
  cbn [Re.split_from single_space Re.match_here Re.atom_matches].
  rewrite H. now rewrite Nat.sub_diag.
Qed.

Lemma split_run (ws cur rest : list ascii) :
  is_run ws = true ->
  Re.split_from single_space 0 cur (ws ++ rest)
  = of_chars (rev cur)
      :: repeat EmptyString (List.length ws - 1)
      ++ Re.split_from single_space 0 [] rest.
Proof.
  unfold is_run. intros H. apply andb_prop in H as [Hne H].
  destruct ws as [| c ws]; [discriminate |]. clear Hne.
  revert c cur H. induction ws as [| c' ws IH]; intros c cur H;
    cbn [forallb] in H; apply andb_prop in H as [Hc H].
  - cbn [app]. now rewrite (split_space c cur rest Hc).
  - cbn [app]. rewrite (split_space c cur _ Hc).
    change (c' :: ws ++ rest) with ((c' :: ws) ++ rest).
    rewrite (IH c' [] H). cbn [List.length rev].
    replace (S (S (List.length ws)) - 1) with (S (S (List.length ws) - 1))
      by lia.
    reflexivity.
Qed.

Lemma split_line_of (f cur : list ascii) (more : list (list ascii * list ascii)) :
  is_field f = true ->
  forallb (fun wf => is_run (fst wf) && is_field (snd wf)) more = true ->
  Re.split_from single_space 0 cur (line_of f more)
  = of_chars (rev cur ++ f)
      :: List.concat
           (map (fun wf => repeat EmptyString (List.length (fst wf) - 1)
                           ++ [of_chars (snd wf)]) more).
Proof.
  revert f cur. induction more as [| [ws g] more IH]; intros f cur Hf Hmore.
  - unfold line_of. cbn [map List.concat].
    unfold is_field in Hf. apply andb_prop in Hf as [_ Hf].
    rewrite (split_field f cur [] Hf). cbn [Re.split_from].
    now rewrite rev_app_distr, rev_involutive.
  - cbn [forallb fst snd] in Hmore.
    apply andb_prop in Hmore as [Hwg Hmore]. apply andb_prop in Hwg as [Hw Hg].
    unfold line_of. cbn [map List.concat fst snd].
    pose proof Hf as Hf'. unfold is_field in Hf'.
    apply andb_prop in Hf' as [_ Hf'].
    rewrite (split_field f cur _ Hf'), <- app_assoc.
    rewrite (split_run ws _ _ Hw).
    change (g ++ List.concat (map (fun wf => fst wf ++ snd wf) more))
      with (line_of g more).
    rewrite (IH g [] Hg Hmore).
    rewrite rev_app_distr, rev_involutive. cbn [rev app].
    now rewrite <- app_assoc.
Qed.

(** A call with every default asks [read_csv] for the separator [\s]. *)
Lemma defaults_read_with_single_space (w : World) (filename : string) :
  path_exists w filename = true ->
  exists rest,
    trace (load_with_defaults w filename)
    = EvExists filename :: EvReadCsv filename "\s" :: rest.
Proof.
  intros H. unfold load_with_defaults, load_from_file.
  rewrite bind_emit. cbn [trace fst]. rewrite H. cbn [negb].
  rewrite bind_ret. cbn [existsb String.eqb Ascii.eqb Bool.eqb orb negb].
  rewrite bind_ret, bind_emit. cbn [trace fst]. eexists. reflexivity.
Qed.

(** C5, as amended.  The default separator is the pattern [\s], one
    whitespace character.  On a line of fields separated by runs of
    whitespace, the first character of a run ends the field before it and
    every further character of the run yields one empty field: a run of
    [k] characters puts [k - 1] empty fields between its neighbours. *)
Theorem default_sep_single_whitespace
  (f : list ascii) (more : list (list ascii * list ascii)) :
  is_field f = true ->
  forallb (fun wf => is_run (fst wf) && is_field (snd wf)) more = true ->
  split_line default_sep (of_chars (line_of f more))
  = Some (fields_single f more).
Proof.
  intros Hf Hmore. unfold split_line.
  rewrite default_sep_compiled. cbn [option_map]. f_equal.
  rewrite chars_of_chars, strip_clean.
  - unfold Re.split. cbn [Re.items]. now rewrite (split_line_of f [] more).
  - apply starts_clean_app. now apply field_starts_clean.
  - now apply line_ends_clean.
Qed.

Lemma default_sep_single_whitespace_witness :
  split_line default_sep "GeneA   3 4" = Some ["GeneA"; ""; ""; "3"; "4"].
Proof.
  apply (default_sep_single_whitespace (chars "GeneA")
           [(chars "   ", chars "3"); (chars " ", chars "4")]);
    reflexivity.
Defined.

(** C5 as stated fails: with the default separator the line [a  b], two
    spaces between its fields, is read as three fields, not as the two
    that one separator between them gives; the pattern [\s+] would read
    two. *)
Lemma double_space_yields_empty_field :
  default_sep = "\s"
  /\ is_field (chars "a") = true /\ is_run (chars "  ") = true
  /\ is_field (chars "b") = true
  /\ split_line default_sep (of_chars (line_of (chars "a") [(chars "  ", chars "b")]))
     = Some ["a"; ""; "b"]
  /\ fields_runs (chars "a") [(chars "  ", chars "b")] = ["a"; "b"]
  /\ split_line default_sep "a b" = Some ["a"; "b"]
  /\ split_line "\s+" "a  b" = Some ["a"; "b"].
Proof. repeat split; reflexivity. Qed.

End Separator.

(* ================================================================== *)
(** ** The cell plot without a clustering *)

Module CellPlotFacts.
Import PyStr Pandas IO Samples Plotting.

(** C9.  On a dataset whose clustering has not been computed, every call
    of [cell_plot] that passes the checks of its arguments ends with
    [NameError]: line 125 reads the name [X], which is bound nowhere.
    Nothing is printed and nothing is plotted. *)
Theorem cell_plot_unclustered_raises
  (colors : list string) (ylw : string) (obj : dataset) (E : DataFrame)
  (target : string) (marker_size : Q) (cluster_colors title : string)
  (verbose : bool) :
  In target targets ->
  lookup target (dr obj) = Some E ->
  Qle_bool 0 marker_size = true ->
  clusters obj = [] ->
  cell_plot colors ylw obj target marker_size cluster_colors title verbose
  = ([], inl (NameError "name 'X' is not defined")).
Proof.
  intros Htarget Hdr Hsize Hcl. unfold cell_plot.
  assert (Hin : existsb (String.eqb target) targets = true).
  { apply existsb_exists. exists target. split; [assumption |].
    apply String.eqb_refl. }
  rewrite Hin, Hdr, Hsize, Hcl. reflexivity.
Qed.

Lemma cell_plot_unclustered_raises_witness :
  cell_plot [] "#fcc603" unclustered "tsne" (8 # 10) "adobo" "" true
  = ([], inl (NameError "name 'X' is not defined")).
Proof.
  apply (cell_plot_unclustered_raises [] "#fcc603" unclustered tsne_embedding).
  - simpl. left. reflexivity.
  - reflexivity.
  - reflexivity.
  - reflexivity.
Defined.

End CellPlotFacts.

(* ================================================================== *)
(** ** The control-probe pattern in words *)

Module ControlPattern.
Import PyStr Pandas IO Spec.

Lemma control_probe_re_items :
  Re.items control_probe_re
  = literal (chars "ArrayControl-") ++ [Re.Plus (Re.ARange "0" "9")].
Proof. reflexivity. Qed.

Lemma control_probe_re_source :
  Re.compile control_probe_src = Some control_probe_re.
Proof. reflexivity. Qed.

Lemma match_literal (p : list ascii) (its : list Re.item)
  (s r : list ascii) :
  Re.match_here true (literal p ++ its) s = Some r
  <-> exists p' s',
        s = p' ++ s' /\ map lower p' = map lower p
        /\ Re.match_here true its s' = Some r.
Proof.
  revert s. induction p as [| a p IH]; intros s.
  - cbn [literal map app]. split.
    + intros H. now exists [], s.
    + intros (p' & s' & -> & Hp & H). now destruct p'.
  - cbn [literal map app Re.match_here Re.atom_matches].
    fold (literal p). split.
    + destruct s as [| c s0]; [discriminate |].
      destruct (Ascii.eqb (lower a) (lower c)) eqn:E; [| discriminate].
      intros H. apply IH in H as (p' & s' & -> & Hp & H).
      apply Ascii.eqb_eq in E. exists (c :: p'), s'.
      split; [reflexivity |]. split; [| exact H].
      cbn [map]. now rewrite E, Hp.
    + intros (p' & s' & -> & Hp & H).
      destruct p' as [| c p']; [discriminate |].
      cbn [map] in Hp. injection Hp as Hc Hp. cbn [app].
      rewrite Hc, Ascii.eqb_refl. apply IH. now exists p', s'.
Qed.

Lemma match_plus_total (a : Re.atom) (c : ascii) (s : list ascii) :
  Re.atom_matches true a c = true ->
  exists r, Re.match_here true [Re.Plus a] (c :: s) = Some r.
Proof.
  intros H. cbn [Re.match_here]. rewrite H.
  induction s as [| c' s IH]; [now exists [] |].
  destruct (Re.atom_matches true a c'); [| now exists (c' :: s)].
  destruct IH as [r ->]. now exists r.
Qed.

Lemma match_plus_head (a : Re.atom) (s r : list ascii) :
  Re.match_here true [Re.Plus a] s = Some r ->
  exists c s', s = c :: s' /\ Re.atom_matches true a c = true.
Proof.
  cbn [Re.match_here]. destruct s as [| c s']; [discriminate |].
  destruct (Re.atom_matches true a c) eqn:E; [| discriminate].
  intros _. now exists c, s'.
Qed.

Lemma digit_range (d : ascii) :
  Re.atom_matches true (Re.ARange "0" "9") d = is_digit d.
Proof. destruct d as [[] [] [] [] [] [] [] []]; reflexivity. Qed.

(** The pattern of line 79, tried without regard to case, matches the
    labels that start with ArrayControl-, in any mix of cases, followed
    by a digit. *)
Lemma control_probe_re_spec (s : string) :
  Re.search true control_probe_re s = true <-> control_probe s.
Proof.
  unfold Re.search, control_probe.
  change (Re.anchored control_probe_re) with true. cbv iota.
  rewrite control_probe_re_items. split.
  - destruct (Re.match_here true _ (chars s)) as [r |] eqn:E; [| discriminate].
    intros _. apply match_literal in E as (p & s' & Hs & Hp & H).
    apply match_plus_head in H as (d & rest & -> & Hd).
    exists p, d, rest. split; [exact Hs |]. split; [exact Hp |].
    now rewrite <- digit_range.
  - intros (p & d & rest & Hs & Hp & Hd).
    rewrite <- digit_range in Hd.
    destruct (match_plus_total _ d rest Hd) as [r Hr].
    assert (E : Re.match_here true
                  (literal (chars "ArrayControl-")
                     ++ [Re.Plus (Re.ARange "0" "9")]) (chars s) = Some r).
    { apply match_literal. exists p, (d :: rest).
      split; [exact Hs |]. split; [exact Hp | exact Hr]. }
    now rewrite E.
Qed.

End ControlPattern.

(* ================================================================== *)
(** ** Labels in literal quotes *)

Module QuotedLabels.
Import PyStr Pandas IO Spec Samples ControlPattern.

(** C2.  The table [gene cell1] with the two rows labelled GeneA, the
    first label in literal double quotes and the second bare, is loaded
    with both rows, and both carry the label GeneA in the dataset: the
    labels are compared for duplicates before the quotes are removed. *)
Theorem quoted_twin_labels_collide :
  wf_frame quoted_twin_table = true
  /\ exists ds,
       outcome (load_with_defaults (world_with quoted_twin_table) "counts.txt")
       = inr ds
       /\ index (exp_mat ds) = [VStr "GeneA"; VStr "GeneA"]
       /\ distinct (index (exp_mat ds)) = false.
Proof.
  split; [reflexivity |]. eexists.
  split; [vm_compute; reflexivity |]. split; reflexivity.
Qed.

(** C3.  The table whose first row is labelled ArrayControl-3 in literal
    double quotes is loaded with that row, and in the dataset its label
    is ArrayControl-3, which the control-probe pattern matches: the
    pattern is tried before the quotes are removed, and the leading quote
    keeps it from matching at the start. *)
Theorem quoted_control_probe_survives :
  wf_frame quoted_control_table = true
  /\ exists ds,
       outcome (load_with_defaults (world_with quoted_control_table)
                  "counts.txt")
       = inr ds
       /\ index (exp_mat ds) = [VStr "ArrayControl-3"; VStr "GeneA"]
       /\ control_probe "ArrayControl-3"
       /\ Re.search true control_probe_re "ArrayControl-3" = true
       /\ Re.search true control_probe_re (quoted "ArrayControl-3") = false.
Proof.
  split; [reflexivity |]. eexists.
  split; [vm_compute; reflexivity |]. split; [reflexivity |].
  split; [now apply control_probe_re_spec |]. split; reflexivity.
Qed.

End QuotedLabels.

(* ================================================================== *)
(** ** What a successful load returns *)

Module LoadResults.
Import PyStr Pandas IO Spec Samples PandasFacts LoaderFacts.

Section Success.
Variables (w : World) (filename sep : string) (header : option Z)
  (column_id : string) (verbose : bool) (desc : string)
  (output_filename input_filename : option string) (args : kwargs).

(** A load that returns a dataset found the file, was given a valid mode,
    read a table and oriented it; the dataset holds the rows of the
    oriented table that pass both filters, labels stripped. *)
Lemma load_success_inv (ds : dataset) :
  outcome (load_from_file w filename sep header column_id verbose desc
             output_filename input_filename args) = inr ds ->
  path_exists w filename = true
  /\ valid_mode column_id = true
  /\ exists df t,
       read_csv w filename sep header args = inr df
       /\ resolve_column_id column_id df = inr t
       /\ ds = new_dataset (loaded_table t) desc output_filename filename verbose
       /\ (exists ss, map label (surviving_rows t) = map VStr ss)
       /\ (exists cs, columns t = map VStr cs).
Proof.
  intros Hrun.
  destruct (path_exists w filename) eqn:Hexists.
  2:{ unfold load_from_file in Hrun. rewrite Hexists in Hrun.
      discriminate Hrun. }
  destruct (valid_mode column_id) eqn:Hmode.
  2:{ unfold load_from_file in Hrun. rewrite bind_emit in Hrun.
      cbn [outcome snd] in Hrun. rewrite Hexists in Hrun.
      cbn [negb] in Hrun. rewrite bind_ret in Hrun.
      fold (valid_mode column_id) in Hrun. rewrite Hmode in Hrun.
      discriminate Hrun. }
  destruct (read_csv w filename sep header args) as [e | df] eqn:Hread.
  { unfold load_from_file in Hrun. rewrite bind_emit in Hrun.
    cbn [outcome snd] in Hrun. rewrite Hexists in Hrun.
    cbn [negb] in Hrun. rewrite bind_ret in Hrun.
    fold (valid_mode column_id) in Hrun. rewrite Hmode in Hrun.
    cbn [negb] in Hrun. rewrite bind_ret, bind_emit in Hrun.
    cbn [outcome snd] in Hrun. rewrite Hread in Hrun. discriminate Hrun. }
  destruct (resolve_column_id column_id df) as [e | t] eqn:Horient.
  { unfold load_from_file in Hrun. rewrite bind_emit in Hrun.
    cbn [outcome snd] in Hrun. rewrite Hexists in Hrun.
    cbn [negb] in Hrun. rewrite bind_ret in Hrun.
    fold (valid_mode column_id) in Hrun. rewrite Hmode in Hrun.
    cbn [negb] in Hrun. rewrite bind_ret, bind_emit in Hrun.
    cbn [outcome snd] in Hrun. rewrite Hread in Hrun.
    change (lift (inr df)) with (ret df) in Hrun. rewrite bind_ret in Hrun.
    rewrite Horient in Hrun. discriminate Hrun. }
  split; [reflexivity |]. split; [reflexivity |]. exists df, t.
  split; [reflexivity |]. split; [assumption |].
  rewrite (load_outcome _ _ _ _ _ _ _ _ _ _ df t Hexists Hmode Hread Horient)
    in Hrun.
  destruct (forallb _ (dtypes t)); [| discriminate].
  destruct (str_accessor (index_dtype t) (map label (unique_rows t)))
    as [e | labels] eqn:Hidx; [discriminate |].
  destruct (columns_str_accessor (columns_dtype t) (columns t))
    as [e | cols] eqn:Hcols; [discriminate |].
  inversion Hrun; subst ds. split; [reflexivity |].
  apply columns_str_accessor_inr in Hcols as [_ Hcols].
  split; [apply surviving_strings | now exists cols].
Qed.

End Success.

End LoadResults.

(* ================================================================== *)
(** ** Label sanitization *)

Module Sanitizer.
Import PyStr Pandas IO Spec Samples PandasFacts LoaderFacts LoadResults.

Lemma remove_dquotes_clean (s : string) : ~ In dquote (chars (remove_dquotes s)).
Proof.
  unfold remove_dquotes, chars, of_chars.
  rewrite list_ascii_of_string_of_list_ascii. intros H.
  apply filter_In in H as [_ H]. now rewrite Ascii.eqb_refl in H.
Qed.

(** C10.  In the dataset that a load returns, the row labels are the
    labels of the rows that passed the filters, and the column labels
    those of the oriented table, each with every double quote removed
    and its other characters kept in order; the cells are untouched.  All
    these labels are strings, and none keeps a double quote. *)
Theorem labels_lose_their_quotes
  (w : World) (filename sep : string) (header : option Z)
  (column_id : string) (verbose : bool) (desc : string)
  (output_filename input_filename : option string) (args : kwargs)
  (ds : dataset) :
  outcome (load_from_file w filename sep header column_id verbose desc
             output_filename input_filename args) = inr ds ->
  exists df t,
    read_csv w filename sep header args = inr df
    /\ resolve_column_id column_id df = inr t
    /\ index (exp_mat ds) = map strip_label (map label (surviving_rows t))
    /\ columns (exp_mat ds) = map strip_label (columns t)
    /\ map cells (rows (exp_mat ds)) = map cells (surviving_rows t)
    /\ (forall v, In v (map label (surviving_rows t) ++ columns t) ->
          exists s, v = VStr s
                    /\ strip_label v = VStr (replace dq "" s)
                    /\ replace dq "" s = remove_dquotes s)
    /\ (forall v, In v (index (exp_mat ds) ++ columns (exp_mat ds)) ->
          exists s, v = VStr s /\ ~ In dquote (chars s)).
Proof.
  intros Hrun.
  destruct (load_success_inv _ _ _ _ _ _ _ _ _ _ ds Hrun)
    as (_ & _ & df & t & Hread & Horient & -> & [ss Hss] & [cs Hcs]).
  exists df, t. split; [assumption |]. split; [assumption |].
  cbn [exp_mat new_dataset]. unfold index, loaded_table. cbn [rows columns].
  rewrite !map_map. cbn [strip_row label cells].
  split; [reflexivity |]. split; [reflexivity |]. split; [reflexivity |].
  assert (Hstr : forall v, In v (map label (surviving_rows t) ++ columns t) ->
                           exists s, v = VStr s).
  { rewrite Hss, Hcs, <- map_app. intros v Hv.
    apply in_map_iff in Hv as [s [<- _]]. now exists s. }
  split.
  - intros v Hv. destruct (Hstr v Hv) as [s ->]. exists s.
    cbn [strip_label]. now rewrite replace_dquote.
  - rewrite <- (map_map label strip_label), <- map_app. intros v Hv.
    apply in_map_iff in Hv as [v0 [<- Hv0]].
    destruct (Hstr v0 Hv0) as [s ->]. exists (remove_dquotes s).
    split; [reflexivity | apply remove_dquotes_clean].
Qed.

(** The table with the column label cell1 in literal quotes, read with
    the genes already in the index. *)
Lemma labels_lose_their_quotes_witness :
  exists ds,
    outcome (load_from_file (world_with labelled_table) "counts.txt"
               default_sep (Some 0%Z) "no" false "no desc set" None None [])
    = inr ds
    /\ columns (exp_mat ds) = [VStr "cell1"; VStr "cell2"]
    /\ exists df t,
         resolve_column_id "no" df = inr t
         /\ columns (exp_mat ds) = map strip_label (columns t).
Proof.
  exists (new_dataset (loaded_table labelled_table) "no desc set" None
            "counts.txt" false).
  split; [vm_compute; reflexivity |]. split; [vm_compute; reflexivity |].
  destruct (labels_lose_their_quotes (world_with labelled_table) "counts.txt"
              default_sep (Some 0%Z) "no" false "no desc set" None None []
              (new_dataset (loaded_table labelled_table) "no desc set" None
                 "counts.txt" false))
    as (df & t & _ & Ht & _ & Hc & _).
  - vm_compute. reflexivity.
  - exists df, t. split; assumption.
Defined.

End Sanitizer.

(* ================================================================== *)
(** ** The duplicate filter *)

Module Duplicates.
Import PyStr Pandas IO Spec Samples PandasFacts LoaderFacts LoadResults.

Lemma deduplicated_In (t : DataFrame) (r : Row) :
  In r (rows (deduplicated t))
  <-> In r (rows t) /\ occurrences (label r) (index t) = 1.
Proof.
  unfold deduplicated, unique_rows, occurs_once. cbn [rows].
  rewrite filter_In, Nat.eqb_eq. reflexivity.
Qed.

(** C8, as amended.  The duplicate filter of [load_from_file] (lines
    72-76) removes every row whose label occurs twice or more, all
    occurrences alike, and hands on every row whose label occurs once,
    unchanged and in order.  In the dataset returned, no row comes from
    a row with a repeated label: its rows are the rows handed on whose
    label is a string that does not match the control-probe pattern,
    each with its label stripped of double quotes.  So a row whose label
    occurs once, is a string and does not match the control-probe
    pattern is in the dataset returned, its cells unchanged and its
    label without double quotes; a row whose label occurs once and is
    missing or matches the pattern is dropped by lines 79-80.  With
    [verbose] set and a repeated label present, the number of rows
    removed is printed. *)
Theorem duplicate_law
  (w : World) (filename sep : string) (header : option Z)
  (column_id : string) (verbose : bool) (desc : string)
  (output_filename input_filename : option string) (args : kwargs)
  (df t : DataFrame) :
  path_exists w filename = true ->
  valid_mode column_id = true ->
  read_csv w filename sep header args = inr df ->
  resolve_column_id column_id df = inr t ->
  let run := load_from_file w filename sep header column_id verbose desc
               output_filename input_filename args in
  outcome (remove_duplicates verbose t) = inr (deduplicated t)
  /\ rows (deduplicated t)
     = filter (fun r => occurrences (label r) (index t) =? 1) (rows t)
  /\ (forall r, 2 <= occurrences (label r) (index t) ->
        ~ In r (rows (deduplicated t)))
  /\ (forall r, In r (rows t) -> occurrences (label r) (index t) = 1 ->
        In r (rows (deduplicated t)))
  /\ (forall ds r', outcome run = inr ds -> In r' (rows (exp_mat ds)) ->
        exists r, In r (rows t) /\ occurrences (label r) (index t) = 1
                  /\ r' = strip_row r)
  /\ (forall ds, outcome run = inr ds ->
        rows (exp_mat ds)
        = map strip_row
            (filter (fun r => passes_control_filter (label r))
               (rows (deduplicated t))))
  /\ (forall ds r s, outcome run = inr ds -> In r (rows t) ->
        occurrences (label r) (index t) = 1 ->
        label r = VStr s ->
        is_control_label (label r) = false ->
        In {| label := VStr (remove_dquotes s); cells := cells r |}
           (rows (exp_mat ds)))
  /\ (verbose = true ->
      (exists r, In r (rows t) /\ 2 <= occurrences (label r) (index t)) ->
      In (EvPrint (str_of_nat (List.length (rows t)
                               - List.length (rows (deduplicated t)))
                     ++ " duplicated genes detected and removed."))
         (trace run)).
Proof.
  intros Hexists Hmode Hread Horient run.
  assert (Hds : forall ds, outcome run = inr ds ->
                           rows (exp_mat ds) = map strip_row (surviving_rows t)).
  { intros ds Hrun. unfold run in Hrun.
    destruct (load_success_inv _ _ _ _ _ _ _ _ _ _ ds Hrun)
      as (_ & _ & df' & t' & Hread' & Horient' & -> & _).
    rewrite Hread in Hread'. inversion Hread'; subst df'.
    rewrite Horient in Horient'. inversion Horient'; subst t'.
    reflexivity. }
  split; [apply remove_duplicates_outcome |].
  split; [reflexivity |].
  split; [intros r Hocc Hin; apply deduplicated_In in Hin; lia |].
  split; [intros r Hin Hocc; now apply deduplicated_In |].
  split; [| split; [exact Hds | split]].
  - intros ds r' Hrun Hr'. rewrite (Hds ds Hrun) in Hr'.
    apply in_map_iff in Hr' as [r [<- Hr]].
    unfold surviving_rows in Hr. apply filter_In in Hr as [Hr _].
    apply (deduplicated_In t r) in Hr as [Hr Hocc]. now exists r.
  - intros ds r s Hrun Hr Hocc Hs Hctl. rewrite (Hds ds Hrun).
    change {| label := VStr (remove_dquotes s); cells := cells r |}
      with {| label := strip_label (VStr s); cells := cells r |}.
    rewrite <- Hs. fold (strip_row r).
    apply in_map. unfold surviving_rows. apply filter_In.
    split; [now apply (deduplicated_In t r) |].
    rewrite Hs in *. cbn [passes_control_filter is_control_label] in *.
    now rewrite Hctl.
  - intros -> [r [Hr Hocc]].
    destruct (load_trace w filename sep header column_id true desc
                output_filename input_filename args df t
                Hexists Hmode Hread Horient) as [rest Htrace].
    unfold run. rewrite Htrace, remove_duplicates_trace.
    assert (Hany : np_any (duplicated (index t)) = true).
    { apply np_any_duplicated. exists (label r).
      split; [apply in_map, Hr | assumption]. }
    rewrite Hany. cbn [andb deduplicated rows].
    right. right. left. reflexivity.
Qed.

(** The table [Gapdh 1 2 / Gapdh 3 4 / Actin 5 6] read verbosely with
    mode yes. *)
Lemma duplicate_law_witness :
  let run := load_from_file (world_with gapdh_table) "counts.txt"
               default_sep (Some 0%Z) "yes" true "no desc set" None None [] in
  In (EvPrint "2 duplicated genes detected and removed.") (trace run)
  /\ exists ds, outcome run = inr ds
       /\ rows (exp_mat ds) = [row (VStr "Actin") [VInt 5; VInt 6]].
Proof.
  intros run. split.
  - eapply (duplicate_law (world_with gapdh_table) "counts.txt" default_sep
              (Some 0%Z) "yes" true "no desc set" None None [] gapdh_table _
              eq_refl eq_refl eq_refl eq_refl).
    + reflexivity.
    + exists (row (VStr "Gapdh") [VInt 1; VInt 2]).
      split; [left; reflexivity | vm_compute; lia].
  - eexists. split; vm_compute; reflexivity.
Defined.

(** C8 as stated fails: in [gene cell1 / ArrayControl-7 1 / GeneA 2] the
    identifier ArrayControl-7 occurs exactly once, the load succeeds, and
    its row is not in the dataset: the control-probe filter removed it. *)
Lemma unique_control_probe_is_absent :
  wf_frame control_once_table = true
  /\ exists t ds,
       resolve_column_id "auto" control_once_table = inr t
       /\ In (row (VStr "ArrayControl-7") [VInt 1]) (rows t)
       /\ occurrences (VStr "ArrayControl-7") (index t) = 1
       /\ outcome (load_with_defaults (world_with control_once_table)
                     "counts.txt")
          = inr ds
       /\ rows (exp_mat ds) = [row (VStr "GeneA") [VInt 2]]
       /\ ~ In (VStr "ArrayControl-7") (index (exp_mat ds)).
Proof.
  split; [reflexivity |]. eexists. eexists.
  split; [vm_compute; reflexivity |].
  split; [left; reflexivity |].
  split; [reflexivity |].
  split; [vm_compute; reflexivity |].
  split; [reflexivity |].
  simpl. intros [H | []]. discriminate H.
Qed.

End Duplicates.

(* ================================================================== *)
(** ** Orientation in mode auto *)

Module Orientation.
Import PyStr Pandas IO Spec Samples PandasFacts LoaderFacts LoadResults.

Lemma value_eqb_sym (a b : value) : value_eqb a b = value_eqb b a.
Proof.
  destruct a, b; simpl; try reflexivity.
  - apply Z.eqb_sym.
  - destruct (Qeq_bool q q0) eqn:E1, (Qeq_bool q0 q) eqn:E2; try reflexivity.
    + apply Qeq_bool_iff in E1. symmetry in E1.
      apply Qeq_bool_iff in E1. congruence.
    + apply Qeq_bool_iff in E2. symmetry in E2.
      apply Qeq_bool_iff in E2. congruence.
  - apply String.eqb_sym.
  - now destruct b, b0.
Qed.

Lemma all_have_dtype_length (ds : list dtype) (vs : list value) :
  all_have_dtype ds vs = true -> List.length vs = List.length ds.
Proof.
  revert vs. induction ds as [| d ds IH]; intros [| v vs] H;
    try discriminate; [reflexivity |].
  cbn [all_have_dtype] in H. apply andb_prop in H as [_ H].
  cbn [List.length]. f_equal. now apply IH.
Qed.

(** The mask by which [drop] removes the first of distinct labels. *)
Lemma drop_first_mask (c0 : value) (cs : list value) :
  distinct (c0 :: cs) = true ->
  map (fun c => negb (value_eqb c c0)) (c0 :: cs)
  = false :: map (fun _ => true) cs.
Proof.
  cbn [distinct map]. intros H. apply andb_prop in H as [H _].
  rewrite value_eqb_refl. cbn [negb]. f_equal.
  apply map_ext_in. intros c Hc.
  destruct (value_eqb c c0) eqn:E; [| reflexivity].
  rewrite value_eqb_sym in E.
  assert (Hex : existsb (value_eqb c0) cs = true)
    by (apply existsb_exists; now exists c).
  rewrite Hex in H. discriminate H.
Qed.

Lemma mask_select_tail {A B} (cs : list B) (l : list A) :
  List.length l = S (List.length cs) ->
  mask_select (false :: map (fun _ => true) cs) l = tl l.
Proof.
  destruct l as [| x l]; [discriminate |]. cbn [mask_select tl List.length].
  intros H. injection H as H. revert l H.
  induction cs as [| c cs IH]; intros [| y l] H; try discriminate;
    [reflexivity |].
  cbn [map mask_select]. f_equal. apply IH. now injection H.
Qed.

Section Auto.
Variables (df : DataFrame) (c0 : value) (cs : list value).
Hypothesis Hwf : wf_frame df = true.
Hypothesis Hcols : columns df = c0 :: cs.

Lemma wf_parts :
  List.length (dtypes df) = S (List.length cs)
  /\ (forall r, In r (rows df) -> all_have_dtype (dtypes df) (cells r) = true)
  /\ distinct (c0 :: cs) = true.
Proof.
  unfold wf_frame in Hwf. rewrite Hcols in Hwf.
  apply andb_prop in Hwf as [H Hd]. apply andb_prop in H as [H _].
  apply andb_prop in H as [Hlen Hrows].
  apply Nat.eqb_eq in Hlen. split; [exact Hlen |]. split; [| exact Hd].
  rewrite forallb_forall in Hrows. intros r Hr.
  specialize (Hrows r Hr). now apply andb_prop in Hrows as [_ H].
Qed.

(** The first cell of a row has the dtype of the first column. *)
Lemma first_cell_dtype (r : Row) :
  In r (rows df) ->
  has_dtype (nth 0 (dtypes df) object_) (nth 0 (cells r) VNaN) = true.
Proof.
  intros Hr. destruct wf_parts as (Hlen & Hrows & _).
  specialize (Hrows r Hr).
  destruct (dtypes df) as [| d ds]; [discriminate |].
  destruct (cells r) as [| v vs]; [discriminate |].
  cbn [all_have_dtype] in Hrows. now apply andb_prop in Hrows as [H _].
Qed.

Lemma auto_keeps :
  rows df <> [] ->
  Forall (fun v => is_integer v = true) (first_column df) ->
  resolve_column_id "auto" df = inr df.
Proof.
  intros Hne Hall. unfold resolve_column_id. cbn [String.eqb Ascii.eqb Bool.eqb].
  rewrite Hcols.
  destruct (rows df) as [| r rs] eqn:Hrows; [congruence |].
  assert (Hr : In r (rows df)) by (rewrite Hrows; now left).
  pose proof (first_cell_dtype r Hr) as Hd.
  unfold first_column in Hall. rewrite Hrows in Hall.
  cbn [map] in Hall. inversion Hall as [| ? ? Hi _]; subst.
  destruct (nth 0 (cells r) VNaN); try discriminate.
  destruct (nth 0 (dtypes df) object_); try discriminate. reflexivity.
Qed.

Lemma auto_promotes :
  Exists (fun v => is_integer v = false) (first_column df) ->
  exists t,
    resolve_column_id "auto" df = inr t
    /\ index t = first_column df
    /\ index_dtype t = nth 0 (dtypes df) object_
    /\ columns t = cs
    /\ dtypes t = tl (dtypes df)
    /\ map cells (rows t) = map (fun r => tl (cells r)) (rows df).
Proof.
  intros Hex. destruct wf_parts as (Hlen & Hrows & Hdist).
  apply Exists_exists in Hex as [v [Hv Hni]].
  unfold first_column in Hv. apply in_map_iff in Hv as [r [<- Hr]].
  pose proof (first_cell_dtype r Hr) as Hd.
  assert (Hnot : negb (dtype_eqb (nth 0 (dtypes df) object_) int64) = true).
  { destruct (nth 0 (dtypes df) object_); try reflexivity.
    destruct (nth 0 (cells r) VNaN); discriminate. }
  unfold resolve_column_id. cbn [String.eqb Ascii.eqb Bool.eqb].
  rewrite Hcols, Hnot. unfold move_col. rewrite Hcols.
  eexists. split; [reflexivity |].
  unfold drop_column, index. cbn [rows index_dtype columns dtypes].
  rewrite (drop_first_mask c0 cs Hdist), !map_map. cbn [label cells].
  split; [reflexivity |]. split; [reflexivity |].
  split.
  { cbn [mask_select]. clear. induction cs as [| c l IH]; [reflexivity |].
    cbn [map mask_select]. now rewrite IH. }
  split; [now apply mask_select_tail |].
  apply map_ext_in. intros r' Hr'. apply mask_select_tail.
  rewrite (all_have_dtype_length _ _ (Hrows r' Hr')). exact Hlen.
Qed.

End Auto.

(** C7.  In mode auto, on a table with a first column and at least one
    row: when every value of the first column is an integer, the table
    is left as it is, and the dataset of a successful load keeps that
    column among its data columns; when some value of the first column
    is not an integer, the values of the whole column become the row
    labels and the column leaves the value matrix, in the oriented table
    and in the dataset of a successful load. *)
Theorem auto_orientation (df : DataFrame) (c0 : value) (cs : list value) :
  wf_frame df = true ->
  columns df = c0 :: cs ->
  (rows df <> [] ->
   Forall (fun v => is_integer v = true) (first_column df) ->
   resolve_column_id "auto" df = inr df
   /\ forall w filename sep header verbose desc output_filename
        input_filename args ds,
        read_csv w filename sep header args = inr df ->
        outcome (load_from_file w filename sep header "auto" verbose desc
                   output_filename input_filename args) = inr ds ->
        columns (exp_mat ds) = strip_label c0 :: map strip_label cs
        /\ forall r', In r' (rows (exp_mat ds)) ->
             exists r, In r (rows df) /\ cells r' = cells r)
  /\ (Exists (fun v => is_integer v = false) (first_column df) ->
      exists t,
        resolve_column_id "auto" df = inr t
        /\ index t = first_column df
        /\ columns t = cs
        /\ map cells (rows t) = map (fun r => tl (cells r)) (rows df)
        /\ forall w filename sep header verbose desc output_filename
             input_filename args ds,
             read_csv w filename sep header args = inr df ->
             outcome (load_from_file w filename sep header "auto" verbose desc
                        output_filename input_filename args) = inr ds ->
             columns (exp_mat ds) = map strip_label cs
             /\ forall r', In r' (rows (exp_mat ds)) ->
                  exists r, In r (rows df)
                    /\ label r' = strip_label (nth 0 (cells r) VNaN)
                    /\ cells r' = tl (cells r)).
Proof.
  intros Hwf Hcols.
  assert (Hload : forall t, resolve_column_id "auto" df = inr t ->
            forall w filename sep header verbose desc output_filename
              input_filename args ds,
              read_csv w filename sep header args = inr df ->
              outcome (load_from_file w filename sep header "auto" verbose desc
                         output_filename input_filename args) = inr ds ->
              columns (exp_mat ds) = map strip_label (columns t)
              /\ forall r', In r' (rows (exp_mat ds)) ->
                   exists r, In r (rows t) /\ r' = strip_row r).
  { intros t Ht w filename sep header verbose desc out inp args ds Hread Hrun.
    destruct (load_success_inv _ _ _ _ _ _ _ _ _ _ ds Hrun)
      as (_ & _ & df' & t' & Hread' & Horient' & -> & _).
    rewrite Hread in Hread'. inversion Hread'; subst df'.
    rewrite Ht in Horient'. inversion Horient'; subst t'.
    split; [reflexivity |].
    cbn [exp_mat new_dataset loaded_table rows]. intros r' Hr'.
    apply in_map_iff in Hr' as [r [<- Hr]]. exists r.
    split; [| reflexivity].
    unfold surviving_rows, unique_rows in Hr.
    apply filter_In in Hr as [Hr _]. now apply filter_In in Hr as [Hr _]. }
  split.
  - intros Hne Hall.
    pose proof (auto_keeps df c0 cs Hwf Hcols Hne Hall) as Hkeep.
    split; [exact Hkeep |].
    intros w filename sep header verbose desc out inp args ds Hread Hrun.
    destruct (Hload df Hkeep _ _ _ _ _ _ _ _ _ ds Hread Hrun) as [Hc Hr].
    rewrite Hcols in Hc. split; [exact Hc |].
    intros r' Hr'. destruct (Hr r' Hr') as [r [Hin ->]]. now exists r.
  - intros Hex.
    destruct (auto_promotes df c0 cs Hwf Hcols Hex)
      as (t & Ht & Hidx & _ & Hct & _ & Hcells).
    exists t. split; [exact Ht |]. split; [exact Hidx |].
    split; [exact Hct |]. split; [exact Hcells |].
    intros w filename sep header verbose desc out inp args ds Hread Hrun.
    destruct (Hload t Ht _ _ _ _ _ _ _ _ _ ds Hread Hrun) as [Hc Hr].
    rewrite Hct in Hc. split; [exact Hc |].
    intros r' Hr'. destruct (Hr r' Hr') as [r [Hin ->]].
    assert (Hrow : exists r0, In r0 (rows df)
                     /\ label r = nth 0 (cells r0) VNaN
                     /\ cells r = tl (cells r0)).
    { clear - Hin Hidx Hcells. unfold index, first_column in Hidx.
      revert Hin Hidx Hcells. generalize (rows df).
      induction (rows t) as [| x xs IH]; intros [| y ys] Hin Hidx Hcells;
        try discriminate; [destruct Hin |].
      cbn [map] in Hidx, Hcells.
      injection Hidx as Hl Hidx. injection Hcells as Hc Hcells.
      destruct Hin as [-> | Hin].
      - exists y. split; [now left | now split].
      - destruct (IH ys Hin Hidx Hcells) as [r0 [H0 H1]].
        exists r0. split; [now right | exact H1]. }
    destruct Hrow as (r0 & Hr0 & Hl & Hc0). exists r0.
    split; [exact Hr0 |]. cbn [strip_row label cells].
    now rewrite Hl, Hc0.
Qed.

(** The table [gene cell1 cell2 / Gapdh .. / Gapdh .. / Actin ..]: its
    first column holds text and becomes the index.  The table with the
    genes in the index and two columns of integers stays as it is. *)
Lemma auto_orientation_witness :
  (exists t,
     resolve_column_id "auto" gapdh_table = inr t
     /\ index t = [VStr "Gapdh"; VStr "Gapdh"; VStr "Actin"]
     /\ columns t = [VStr "cell1"; VStr "cell2"])
  /\ resolve_column_id "auto" labelled_table = inr labelled_table.
Proof.
  split.
  - destruct (auto_orientation gapdh_table (VStr "gene")
                [VStr "cell1"; VStr "cell2"] eq_refl eq_refl) as [_ H].
    destruct H as (t & Ht & Hidx & Hcols & _).
    + apply Exists_cons_hd. reflexivity.
    + exists t. split; [exact Ht |]. split; [exact Hidx | exact Hcols].
  - destruct (auto_orientation labelled_table (VStr (quoted "cell1"))
                [VStr "cell2"] eq_refl eq_refl) as [H _].
    apply H.
    + discriminate.
    + repeat constructor.
Defined.

End Orientation.

(* ================================================================== *)
(** ** Further properties of the loader *)

Module LoaderExtras.
Import PyStr Pandas IO Spec Samples PandasFacts LoaderFacts LoadResults
  Orientation Further.

(** *** The trace of a load *)

Lemma prints_summary_bind {A} (verbose : bool) (m : M A) (f : A -> M dataset) :
  trace m = [] -> (forall a, prints_summary verbose (f a)) ->
  prints_summary verbose (bind m f).
Proof.
  unfold prints_summary. intros Hm Hf.
  rewrite trace_bind, outcome_bind, Hm.
  destruct (outcome m) as [e | a]; [reflexivity | apply Hf].
Qed.

Lemma lift_trace {A} (r : exn + A) : trace (lift r) = [].
Proof. reflexivity. Qed.

Lemma remove_control_probes_trace (t : DataFrame) :
  trace (remove_control_probes t) = [].
Proof.
  unfold remove_control_probes. rewrite trace_bind, lift_trace.
  now destruct (outcome _).
Qed.

Lemma strip_quotes_trace (t : DataFrame) : trace (strip_quotes t) = [].
Proof.
  unfold strip_quotes. rewrite trace_bind, lift_trace. cbn [app].
  destruct (outcome _) as [e | labels]; [reflexivity |].
  rewrite trace_bind, lift_trace. now destruct (outcome _).
Qed.

Section Trace.
Variables (w : World) (filename sep : string) (header : option Z)
  (column_id : string) (verbose : bool) (desc : string)
  (output_filename input_filename : option string) (args : kwargs).
Variables df t : DataFrame.
Hypothesis Hexists : path_exists w filename = true.
Hypothesis Hmode : valid_mode column_id = true.
Hypothesis Hread : read_csv w filename sep header args = inr df.
Hypothesis Horient : resolve_column_id column_id df = inr t.

(** Everything a load does once the table is read and oriented. *)
Lemma load_trace_full :
  trace (load_from_file w filename sep header column_id verbose desc
           output_filename input_filename args)
  = EvExists filename :: EvReadCsv filename sep
      :: (if verbose then duplicates_line t else [])
      ++ match outcome (load_from_file w filename sep header column_id
                          verbose desc output_filename input_filename args)
         with
         | inr ds =>
             if verbose then [EvPrint (summary_line (exp_mat ds))] else []
         | inl _ => []
         end.
Proof.
  unfold load_from_file.
  rewrite bind_emit. cbn [trace fst outcome snd].
  rewrite Hexists. cbn [negb]. rewrite bind_ret.
  fold (valid_mode column_id). rewrite Hmode. cbn [negb].
  rewrite bind_ret, bind_emit. cbn [trace fst outcome snd].
  rewrite Hread. change (lift (inr df)) with (ret df). rewrite bind_ret.
  rewrite Horient. change (lift (inr t)) with (ret t). rewrite bind_ret.
  rewrite trace_bind, outcome_bind.
  rewrite remove_duplicates_trace, remove_duplicates_outcome.
  f_equal. f_equal. f_equal.
  - unfold duplicates_line.
    destruct (np_any (duplicated (index t))), verbose; reflexivity.
  - apply (prints_summary_bind verbose); [apply check_counts_trace |].
    intros _.
    apply (prints_summary_bind verbose); [apply remove_control_probes_trace |].
    intros x.
    apply (prints_summary_bind verbose); [apply strip_quotes_trace |].
    intros y. unfold prints_summary.
    rewrite trace_bind, outcome_bind.
    destruct verbose; reflexivity.
Qed.

End Trace.

(** *** The checks of the arguments *)

(** X1.  A mode other than auto, yes and no ends the load with the
    exception of line 55 as soon as the path has been found to exist:
    the file is not read. *)
Theorem invalid_mode_fails_before_reading
  (w : World) (filename sep : string) (header : option Z)
  (column_id : string) (verbose : bool) (desc : string)
  (output_filename input_filename : option string) (args : kwargs) :
  path_exists w filename = true ->
  valid_mode column_id = false ->
  load_from_file w filename sep header column_id verbose desc
    output_filename input_filename args
  = ([EvExists filename], inl InvalidParameter).
Proof.
  intros Hexists Hmode. unfold load_from_file.
  rewrite bind_emit, Hexists. cbn [negb]. rewrite bind_ret.
  fold (valid_mode column_id). rewrite Hmode. reflexivity.
Qed.

Lemma invalid_mode_fails_before_reading_witness :
  load_from_file (world_with gapdh_table) "counts.txt" default_sep
    (Some 0%Z) "maybe" true "no desc set" None None []
  = ([EvExists "counts.txt"], inl InvalidParameter).
Proof.
  apply (invalid_mode_fails_before_reading (world_with gapdh_table));
    reflexivity.
Defined.

(** X9.  In the modes auto and yes a table without any column ends the
    load with [IndexError], raised by [exp_mat.columns[0]] right after
    the file is read. *)
Theorem no_column_to_promote
  (w : World) (filename sep : string) (header : option Z)
  (column_id : string) (verbose : bool) (desc : string)
  (output_filename input_filename : option string) (args : kwargs)
  (df : DataFrame) :
  path_exists w filename = true ->
  read_csv w filename sep header args = inr df ->
  columns df = [] ->
  column_id = "auto" \/ column_id = "yes" ->
  load_from_file w filename sep header column_id verbose desc
    output_filename input_filename args
  = ([EvExists filename; EvReadCsv filename sep],
     inl (IndexError "index 0 is out of bounds for axis 0 with size 0")).
Proof.
  intros Hexists Hread Hcols Hmode. unfold load_from_file.
  rewrite bind_emit, Hexists. cbn [negb]. rewrite bind_ret.
  assert (Hres : resolve_column_id column_id df = inl out_of_bounds).
  { unfold resolve_column_id, move_col. rewrite Hcols.
    destruct Hmode as [-> | ->]; reflexivity. }
  assert (Hvalid : existsb (String.eqb column_id) ["auto"; "yes"; "no"] = true)
    by (destruct Hmode as [-> | ->]; reflexivity).
  rewrite Hvalid. cbn [negb]. rewrite bind_ret, bind_emit.
  rewrite Hread. change (lift (inr df)) with (ret df). rewrite bind_ret.
  rewrite Hres. reflexivity.
Qed.

Lemma no_column_to_promote_witness :
  outcome (load_from_file (world_with no_column_table) "counts.txt"
             default_sep (Some 0%Z) "yes" false "no desc set" None None [])
  = inl (IndexError "index 0 is out of bounds for axis 0 with size 0").
Proof.
  rewrite (no_column_to_promote (world_with no_column_table) "counts.txt"
             default_sep (Some 0%Z) "yes" false "no desc set" None None []
             no_column_table eq_refl eq_refl eq_refl (or_intror eq_refl)).
  reflexivity.
Defined.

(** *** What is printed *)

(** X4.  With [verbose] off a load prints nothing: all it does to the
    outside is the test of the path and, when the path exists and the
    mode is valid, one call of [read_csv]. *)
Theorem silent_load_prints_nothing
  (w : World) (filename sep : string) (header : option Z)
  (column_id : string) (desc : string)
  (output_filename input_filename : option string) (args : kwargs) :
  let run := load_from_file w filename sep header column_id false desc
               output_filename input_filename args in
  (trace run = [EvExists filename]
   \/ trace run = [EvExists filename; EvReadCsv filename sep])
  /\ forall ev, In ev (trace run) -> is_print ev = false.
Proof.
  intros run.
  assert (H : trace run = [EvExists filename]
              \/ trace run = [EvExists filename; EvReadCsv filename sep]).
  { unfold run.
    destruct (path_exists w filename) eqn:Hexists.
    2:{ left. unfold load_from_file. now rewrite bind_emit, Hexists. }
    destruct (valid_mode column_id) eqn:Hmode.
    2:{ left.
        unfold load_from_file.
        rewrite bind_emit, Hexists. cbn [negb]. rewrite bind_ret.
        fold (valid_mode column_id). now rewrite Hmode. }
    destruct (read_csv w filename sep header args) as [e | df] eqn:Hread.
    { right. unfold load_from_file.
      rewrite bind_emit, Hexists. cbn [negb]. rewrite bind_ret.
      fold (valid_mode column_id). rewrite Hmode. cbn [negb].
      rewrite bind_ret, bind_emit, Hread. reflexivity. }
    destruct (resolve_column_id column_id df) as [e | t] eqn:Horient.
    { right. unfold load_from_file.
      rewrite bind_emit, Hexists. cbn [negb]. rewrite bind_ret.
      fold (valid_mode column_id). rewrite Hmode. cbn [negb].
      rewrite bind_ret, bind_emit, Hread.
      change (lift (inr df)) with (ret df). rewrite bind_ret, Horient.
      reflexivity. }
    right.
    rewrite (load_trace_full _ _ _ _ _ _ _ _ _ _ df t
               Hexists Hmode Hread Horient).
    now destruct (outcome _). }
  split; [exact H |].
  intros ev Hev. destruct H as [H | H]; rewrite H in Hev; simpl in Hev;
    intuition (subst; reflexivity).
Qed.

(** X5.  With [verbose] on, a load that returns a dataset has printed, in
    this order, the line about removed duplicates if a row label was
    repeated, and the summary line with the numbers of rows and columns
    of the matrix it returns; it has printed nothing else, and read the
    file once. *)
Theorem verbose_load_report
  (w : World) (filename sep : string) (header : option Z)
  (column_id : string) (desc : string)
  (output_filename input_filename : option string) (args : kwargs)
  (ds : dataset) :
  let run := load_from_file w filename sep header column_id true desc
               output_filename input_filename args in
  outcome run = inr ds ->
  exists df t,
    read_csv w filename sep header args = inr df
    /\ resolve_column_id column_id df = inr t
    /\ trace run
       = [EvExists filename; EvReadCsv filename sep]
           ++ duplicates_line t
           ++ [EvPrint (format_thousands (List.length (rows (exp_mat ds)))
                          ++ " genes and "
                          ++ format_thousands
                               (List.length (columns (exp_mat ds)))
                          ++ " cells were loaded")].
Proof.
  intros run Hrun. unfold run in *.
  destruct (load_success_inv _ _ _ _ _ _ _ _ _ _ ds Hrun)
    as (Hexists & Hmode & df & t & Hread & Horient & _).
  exists df, t. split; [exact Hread |]. split; [exact Horient |].
  rewrite (load_trace_full _ _ _ _ _ _ _ _ _ _ df t
             Hexists Hmode Hread Horient), Hrun.
  reflexivity.
Qed.

Lemma verbose_load_report_witness :
  trace (load_from_file (world_with gapdh_table) "counts.txt" default_sep
           (Some 0%Z) "auto" true "no desc set" None None [])
  = [EvExists "counts.txt"; EvReadCsv "counts.txt" "\s";
     EvPrint "2 duplicated genes detected and removed.";
     EvPrint "1 genes and 2 cells were loaded"].
Proof.
  destruct (verbose_load_report (world_with gapdh_table) "counts.txt"
              default_sep (Some 0%Z) "auto" "no desc set" None None []
              (new_dataset (loaded_table gapdh_oriented)
                 "no desc set" None "counts.txt" true))
    as (df & t & Hread & Ht & Htrace).
  - vm_compute. reflexivity.
  - rewrite Htrace. injection Hread as <-.
    vm_compute in Ht. injection Ht as <-. vm_compute. reflexivity.
Defined.

Lemma silent_load_prints_nothing_witness :
  trace (load_from_file (world_with gapdh_table) "counts.txt" default_sep
           (Some 0%Z) "auto" false "no desc set" None None [])
  = [EvExists "counts.txt"; EvReadCsv "counts.txt" "\s"].
Proof.
  destruct (silent_load_prints_nothing (world_with gapdh_table) "counts.txt"
              default_sep (Some 0%Z) "auto" "no desc set" None None [])
    as [[H | H] _]; [discriminate H | exact H].
Defined.

End LoaderExtras.

(* ================================================================== *)
(** ** When a load succeeds, and what its dataset holds *)

Module LoaderInvariants.
Import PyStr Pandas IO Spec Samples PandasFacts LoaderFacts LoadResults
  Orientation Further.

Lemma strings_of_all_strings (l : list value) :
  (exists ss, strings_of l = Some ss) <-> all_strings l.
Proof.
  unfold all_strings. split.
  - intros [ss H] v Hv. apply strings_of_Some in H. subst l.
    apply in_map_iff in Hv as [s [<- _]]. now exists s.
  - induction l as [| v l IH]; intros H; [now exists [] |].
    destruct (H v (or_introl eq_refl)) as [s ->].
    destruct IH as [ss Hss]; [intros x Hx; apply H; now right |].
    exists (s :: ss). cbn [strings_of]. now rewrite Hss.
Qed.

Lemma labels_of_typed (l : list value) :
  (forall v, In v l -> has_dtype object_ v = true) ->
  exists ls, labels_of l = Some ls.
Proof.
  induction l as [| v l IH]; intros H; [now exists [] |].
  destruct IH as [ls Hls]; [intros x Hx; apply H; now right |].
  specialize (H v (or_introl eq_refl)).
  destruct v; try discriminate; cbn [labels_of]; rewrite Hls;
    eexists; reflexivity.
Qed.

Lemma strings_of_typed (l : list value) :
  (forall v, In v l -> has_label_dtype object_ v = true) ->
  exists ss, strings_of l = Some ss.
Proof.
  intros H. apply strings_of_all_strings. intros v Hv.
  specialize (H v Hv). destruct v; try discriminate. now eexists.
Qed.

Lemma wf_labels (df : DataFrame) (r : Row) :
  wf_frame df = true -> In r (rows df) ->
  has_dtype (index_dtype df) (label r) = true.
Proof.
  unfold wf_frame. intros H Hr.
  apply andb_prop in H as [H _]. apply andb_prop in H as [H _].
  apply andb_prop in H as [_ H].
  rewrite forallb_forall in H. specialize (H r Hr).
  now apply andb_prop in H as [H _].
Qed.

Lemma wf_columns (df : DataFrame) (c : value) :
  wf_frame df = true -> In c (columns df) ->
  has_label_dtype (columns_dtype df) c = true.
Proof.
  unfold wf_frame. intros H Hc.
  apply andb_prop in H as [H _]. apply andb_prop in H as [_ H].
  rewrite forallb_forall in H. now apply H.
Qed.

(** The labels of a parsed table are of the dtype of their index, and
    they still are once a column has been promoted. *)
Lemma move_col_labels (df t : DataFrame) :
  wf_frame df = true -> move_col df = inr t ->
  (forall r, In r (rows t) -> has_dtype (index_dtype t) (label r) = true)
  /\ (forall c, In c (columns t) ->
        has_label_dtype (columns_dtype t) c = true).
Proof.
  intros Hwf. unfold move_col.
  destruct (columns df) as [| c0 cs] eqn:Hcols; [discriminate |].
  intros H. inversion H; subst t; clear H.
  unfold drop_column. cbn [rows index_dtype columns columns_dtype]. split.
  - intros r Hr. rewrite map_map in Hr.
    apply in_map_iff in Hr as [r0 [<- Hr0]]. cbn [label].
    exact (first_cell_dtype df c0 cs Hwf Hcols r0 Hr0).
  - intros c Hc. apply mask_select_In in Hc.
    apply wf_columns; [exact Hwf | now rewrite Hcols].
Qed.

Lemma resolve_labels (column_id : string) (df t : DataFrame) :
  wf_frame df = true -> resolve_column_id column_id df = inr t ->
  (forall r, In r (rows t) -> has_dtype (index_dtype t) (label r) = true)
  /\ (forall c, In c (columns t) ->
        has_label_dtype (columns_dtype t) c = true).
Proof.
  intros Hwf. unfold resolve_column_id.
  assert (Hid : @inr exn DataFrame df = inr t ->
    (forall r, In r (rows t) -> has_dtype (index_dtype t) (label r) = true)
    /\ (forall c, In c (columns t) ->
          has_label_dtype (columns_dtype t) c = true)).
  { intros H. inversion H; subst t. split.
    - intros r Hr. now apply wf_labels.
    - intros c Hc. now apply wf_columns. }
  destruct (String.eqb column_id "auto").
  - destruct (columns df); [discriminate |].
    destruct (negb _); [now apply move_col_labels | exact Hid].
  - destruct (String.eqb column_id "yes");
      [now apply move_col_labels | exact Hid].
Qed.

(** An index of dtype object gives its strings to the string methods,
    whichever of its labels are missing. *)
Lemma str_accessor_object (l : list value) :
  (forall v, In v l -> has_dtype object_ v = true) ->
  exists ls, str_accessor object_ l = inr ls.
Proof.
  intros H. destruct (labels_of_typed l H) as [ls Hls].
  exists ls. unfold str_accessor. now rewrite Hls.
Qed.

Lemma columns_str_accessor_object (l : list value) :
  (forall v, In v l -> has_label_dtype object_ v = true) ->
  exists ss, columns_str_accessor object_ l = inr ss.
Proof.
  intros H. destruct (strings_of_typed l H) as [ss Hss].
  exists ss. unfold columns_str_accessor. now rewrite Hss.
Qed.

Lemma str_accessor_fails (d : dtype) (l : list value) :
  d <> object_ ->
  str_accessor d l
  = inl (AttributeError "Can only use .str accessor with string values!").
Proof. intros H. destruct d; try reflexivity. congruence. Qed.

Lemma columns_str_accessor_fails (d : dtype) (l : list value) :
  d <> object_ -> columns_str_accessor d l = inl no_str_accessor.
Proof. intros H. destruct d; try reflexivity. congruence. Qed.

Lemma int64_cells_range (ds : list dtype) (vs : list value) (v : value) :
  all_have_dtype ds vs = true ->
  forallb (fun d => dtype_eqb d int64) ds = true ->
  In v vs -> exists z, v = VInt z /\ in_int64 z.
Proof.
  revert vs. induction ds as [| d ds IH]; intros [| x vs] H Hall Hin;
    try discriminate; [destruct Hin |].
  cbn [all_have_dtype forallb] in *.
  apply andb_prop in H as [Hd H]. apply andb_prop in Hall as [Hi Hall].
  destruct Hin as [-> | Hin]; [| now apply (IH vs)].
  destruct d; try discriminate. destruct v; try discriminate.
  exists z. split; [reflexivity |]. unfold in_int64.
  cbn [has_dtype] in Hd. apply andb_prop in Hd as [H1 H2].
  apply Z.leb_le in H1. apply Z.ltb_lt in H2. lia.
Qed.

Section Oriented.
Variables (w : World) (filename sep : string) (header : option Z)
  (column_id : string) (verbose : bool) (desc : string)
  (output_filename input_filename : option string) (args : kwargs).
Variables df t : DataFrame.
Hypothesis Hexists : path_exists w filename = true.
Hypothesis Hmode : valid_mode column_id = true.
Hypothesis Hread : read_csv w filename sep header args = inr df.
Hypothesis Horient : resolve_column_id column_id df = inr t.

(** X2.  Once a table that the parser can produce is read and
    oriented, the load returns a dataset exactly when every column has
    the dtype int64 and both the row index and the column index have the
    dtype object.  Missing row labels do not end the load: their rows are
    dropped by the control-probe filter of lines 79-80, which keeps the
    rows of the duplicate filter whose label is a string that does not
    match the pattern.  The dataset is then that filtered table with its
    labels stripped, with the description, the output file name, the
    path and the verbosity it was called with.  A load that is not
    returned ends with the exception of line 78 when some column is not
    int64, and with [AttributeError] otherwise. *)
Theorem load_succeeds_iff :
  wf_frame df = true ->
  let run := load_from_file w filename sep header column_id verbose desc
               output_filename input_filename args in
  ((exists ds, outcome run = inr ds)
   <-> forallb (fun d => dtype_eqb d int64) (dtypes t) = true
       /\ index_dtype t = object_
       /\ columns_dtype t = object_)
  /\ (forall ds, outcome run = inr ds ->
        ds = new_dataset (loaded_table t) desc output_filename filename
               verbose
        /\ rows (exp_mat ds)
           = map strip_row
               (filter (fun r => passes_control_filter (label r))
                  (unique_rows t)))
  /\ (forallb (fun d => dtype_eqb d int64) (dtypes t) = false ->
        outcome run = inl NonCountData)
  /\ (forallb (fun d => dtype_eqb d int64) (dtypes t) = true ->
        index_dtype t <> object_ \/ columns_dtype t <> object_ ->
        outcome run = inl no_str_accessor).
Proof.
  intros Hwf run. unfold run.
  rewrite (load_outcome _ _ _ _ _ _ _ _ _ _ df t Hexists Hmode Hread Horient).
  destruct (resolve_labels column_id df t Hwf Horient) as [Hlab Hcol].
  assert (Hidx : index_dtype t = object_ ->
            exists ls, str_accessor (index_dtype t)
                         (map label (unique_rows t)) = inr ls).
  { intros Hd. rewrite Hd. apply str_accessor_object. intros v Hv.
    apply in_map_iff in Hv as [r [<- Hr]].
    unfold unique_rows in Hr. apply filter_In in Hr as [Hr _].
    rewrite <- Hd. now apply Hlab. }
  assert (Hcs : columns_dtype t = object_ ->
            exists ss, columns_str_accessor (columns_dtype t) (columns t)
                       = inr ss).
  { intros Hd. rewrite Hd. apply columns_str_accessor_object. intros v Hv.
    rewrite <- Hd. now apply Hcol. }
  split; [split |]; [| | split; [| split]].
  - intros [ds H].
    destruct (forallb _ (dtypes t)); [| discriminate].
    destruct (str_accessor (index_dtype t) _) as [e | ls] eqn:Hi;
      [discriminate |].
    destruct (columns_str_accessor (columns_dtype t) _) as [e | cs] eqn:Hc;
      [discriminate |].
    apply str_accessor_inr in Hi as [Hi _].
    apply columns_str_accessor_inr in Hc as [Hc _].
    now repeat split.
  - intros (-> & Hd & Hcd).
    destruct (Hidx Hd) as [ls ->]. destruct (Hcs Hcd) as [ss ->].
    eexists. reflexivity.
  - intros ds H.
    destruct (forallb _ (dtypes t)); [| discriminate].
    destruct (str_accessor (index_dtype t) _); [discriminate |].
    destruct (columns_str_accessor (columns_dtype t) _); [discriminate |].
    inversion H. split; reflexivity.
  - intros ->. reflexivity.
  - intros -> [Hd | Hd].
    + now rewrite (str_accessor_fails _ _ Hd).
    + destruct (str_accessor (index_dtype t) _) as [e | ls] eqn:Hi.
      * destruct (index_dtype t); try (inversion Hi; reflexivity).
        unfold str_accessor in Hi.
        destruct (labels_of _); [discriminate | now inversion Hi].
      * now rewrite (columns_str_accessor_fails _ _ Hd).
Qed.

(** X8.  A table of counts whose row index is not an index of strings
    (the default integer index kept by mode no, or a column of numbers
    promoted by mode yes) is not loaded: the control-probe filter of
    line 79 ends the load with [AttributeError]. *)
Theorem numeric_index_is_refused :
  forallb (fun d => dtype_eqb d int64) (dtypes t) = true ->
  index_dtype t <> object_ ->
  outcome (load_from_file w filename sep header column_id verbose desc
             output_filename input_filename args)
  = inl (AttributeError "Can only use .str accessor with string values!").
Proof.
  intros Hint Hidx.
  rewrite (load_outcome _ _ _ _ _ _ _ _ _ _ df t Hexists Hmode Hread Horient).
  now rewrite Hint, (str_accessor_fails _ _ Hidx).
Qed.

(** X3.  Every cell of the matrix of a dataset that a load returns is an
    integer within the 64-bit signed range, and every column of it has
    the dtype int64. *)
Theorem loaded_cells_are_int64 (ds : dataset) :
  wf_frame df = true ->
  outcome (load_from_file w filename sep header column_id verbose desc
             output_filename input_filename args) = inr ds ->
  Forall (fun d => d = int64) (dtypes (exp_mat ds))
  /\ forall r v, In r (rows (exp_mat ds)) -> In v (cells r) ->
       exists z, v = VInt z /\ in_int64 z.
Proof.
  intros Hwf Hrun.
  rewrite (load_outcome _ _ _ _ _ _ _ _ _ _ df t Hexists Hmode Hread Horient)
    in Hrun.
  destruct (forallb _ (dtypes t)) eqn:Hint; [| discriminate].
  destruct (str_accessor (index_dtype t) _); [discriminate |].
  destruct (columns_str_accessor (columns_dtype t) _); [discriminate |].
  inversion Hrun; subst ds; clear Hrun.
  cbn [exp_mat new_dataset loaded_table dtypes rows]. split.
  - apply Forall_forall. intros d Hd.
    rewrite forallb_forall in Hint. specialize (Hint d Hd).
    now destruct d.
  - intros r v Hr Hv. apply in_map_iff in Hr as [r0 [<- Hr0]].
    cbn [strip_row cells] in Hv.
    unfold surviving_rows, unique_rows in Hr0.
    apply filter_In in Hr0 as [Hr0 _]. apply filter_In in Hr0 as [Hr0 _].
    assert (Ht : typed t = true)
      by (apply (resolve_typed column_id df); [now apply wf_typed | assumption]).
    unfold typed in Ht. rewrite forallb_forall in Ht.
    exact (int64_cells_range _ _ v (Ht r0 Hr0) Hint Hv).
Qed.

End Oriented.

(** The file [gene cell1 / NA 1 / GeneA 2]: the row without a label is
    dropped and the load returns the row of GeneA. *)
Lemma load_succeeds_iff_witness :
  wf_frame missing_label_table = true
  /\ resolve_column_id "auto" missing_label_table = inr missing_label_oriented
  /\ exists ds,
       outcome (load_from_file (world_with missing_label_table) "counts.txt"
                  default_sep (Some 0%Z) "auto" false "no desc set" None None
                  [])
       = inr ds
       /\ rows (exp_mat ds) = [Samples.row (VStr "GeneA") [VInt 2]].
Proof.
  split; [reflexivity |]. split; [reflexivity |].
  destruct (load_succeeds_iff (world_with missing_label_table) "counts.txt"
              default_sep (Some 0%Z) "auto" false "no desc set" None None []
              missing_label_table missing_label_oriented
              eq_refl eq_refl eq_refl eq_refl eq_refl)
    as (Hiff & Hds & _).
  destruct (proj2 Hiff) as [ds Hrun]; [now repeat split |].
  exists ds. split; [exact Hrun |].
  destruct (Hds ds Hrun) as [_ ->]. reflexivity.
Defined.

(** The file [a b / 1 3 / 2 5] read with mode no keeps the default
    index. *)
Lemma numeric_index_is_refused_witness :
  outcome (load_from_file (world_with integer_table) "counts.txt" default_sep
             (Some 0%Z) "no" false "no desc set" None None [])
  = inl (AttributeError "Can only use .str accessor with string values!").
Proof.
  apply (numeric_index_is_refused (world_with integer_table) "counts.txt"
           default_sep (Some 0%Z) "no" false "no desc set" None None []
           integer_table integer_table eq_refl eq_refl eq_refl eq_refl).
  - reflexivity.
  - discriminate.
Defined.

Lemma loaded_cells_are_int64_witness :
  Forall (fun d => d = int64) (dtypes (loaded_table gapdh_oriented))
  /\ exists z, VInt 5 = VInt z /\ in_int64 z.
Proof.
  destruct (loaded_cells_are_int64 (world_with gapdh_table) "counts.txt"
              default_sep (Some 0%Z) "auto" false "no desc set" None None []
              gapdh_table gapdh_oriented eq_refl eq_refl eq_refl eq_refl
              (new_dataset (loaded_table gapdh_oriented) "no desc set" None
                 "counts.txt" false) eq_refl) as [Hd Hc].
  - vm_compute. reflexivity.
  - split; [exact Hd |].
    apply (Hc (row (VStr "Actin") [VInt 5; VInt 6]) (VInt 5)).
    + left. reflexivity.
    + left. reflexivity.
Defined.

(** *** Mode yes *)

(** X7.  Mode yes promotes the first column whatever it holds: its
    values become the row labels, with its dtype as the dtype of the
    index, and the column leaves the columns, the dtypes and every
    row. *)
Theorem yes_always_promotes (df : DataFrame) (c0 : value) (cs : list value) :
  wf_frame df = true ->
  columns df = c0 :: cs ->
  exists t,
    resolve_column_id "yes" df = inr t
    /\ index t = first_column df
    /\ index_dtype t = nth 0 (dtypes df) object_
    /\ columns t = cs
    /\ dtypes t = tl (dtypes df)
    /\ map cells (rows t) = map (fun r => tl (cells r)) (rows df)
    /\ columns_dtype t = columns_dtype df.
Proof.
  intros Hwf Hcols.
  destruct (wf_parts df c0 cs Hwf Hcols) as (Hlen & Hrows & Hdist).
  unfold resolve_column_id. cbn [String.eqb Ascii.eqb Bool.eqb].
  unfold move_col. rewrite Hcols.
  eexists. split; [reflexivity |].
  unfold drop_column, index. cbn [rows index_dtype columns dtypes columns_dtype].
  rewrite (drop_first_mask c0 cs Hdist), !map_map. cbn [label cells].
  split; [reflexivity |]. split; [reflexivity |].
  split.
  { cbn [mask_select]. clear. induction cs as [| c l IH]; [reflexivity |].
    cbn [map mask_select]. now rewrite IH. }
  split; [now apply mask_select_tail |].
  split; [| reflexivity].
  apply map_ext_in. intros r' Hr'. apply mask_select_tail.
  rewrite (all_have_dtype_length _ _ (Hrows r' Hr')). exact Hlen.
Qed.

(** The file [a b / 1 3 / 2 5]: the integers of column a become the row
    labels. *)
Lemma yes_always_promotes_witness :
  exists t,
    resolve_column_id "yes" integer_table = inr t
    /\ index t = [VInt 1; VInt 2]
    /\ index_dtype t = int64
    /\ columns t = [VStr "b"].
Proof.
  destruct (yes_always_promotes integer_table (VStr "a") [VStr "b"]
              eq_refl eq_refl) as (t & Ht & Hi & Hd & Hc & _).
  exists t. now repeat split.
Defined.

End LoaderInvariants.

(* ================================================================== *)
(** ** The control-probe pattern and the thousands separator *)

Module Formats.
Import PyStr Pandas IO Spec Further ControlPattern.

Lemma lower_idempotent (c : ascii) : lower (lower c) = lower c.
Proof. destruct c as [[] [] [] [] [] [] [] []]; reflexivity. Qed.

Lemma is_digit_lower (c : ascii) : is_digit (lower c) = is_digit c.
Proof. destruct c as [[] [] [] [] [] [] [] []]; reflexivity. Qed.

Lemma chars_lowercase (s : string) : chars (lowercase s) = map lower (chars s).
Proof. unfold lowercase. apply list_ascii_of_string_of_list_ascii. Qed.

Lemma app_same_length {A} (a c b d : list A) :
  List.length a = List.length c -> a ++ b = c ++ d -> a = c /\ b = d.
Proof.
  revert c. induction a as [| x a IH]; intros [| y c] Hl H; try discriminate.
  - now split.
  - injection Hl as Hl. injection H as -> H.
    destruct (IH c Hl H) as [-> ->]. now split.
Qed.

Lemma control_probe_lowercase (s : string) :
  control_probe (lowercase s) <-> control_probe s.
Proof.
  unfold control_probe. rewrite chars_lowercase. split.
  - intros (p' & d' & rest' & Hs & Hp & Hd).
    apply map_eq_app in Hs as (p & r & Hs & Hp' & Hr).
    apply map_eq_cons in Hr as (d & rest & -> & Hd' & _).
    exists p, d, rest. split; [exact Hs |]. subst p' d'.
    rewrite map_map in Hp. rewrite is_digit_lower in Hd.
    split; [| exact Hd]. rewrite <- Hp. apply map_ext.
    intros c. now rewrite lower_idempotent.
  - intros (p & d & rest & -> & Hp & Hd).
    exists (map lower p), (lower d), (map lower rest).
    rewrite map_app. cbn [map]. split; [reflexivity |].
    rewrite is_digit_lower. split; [| exact Hd].
    rewrite map_map, <- Hp. apply map_ext. intros c. apply lower_idempotent.
Qed.

(** X10.  The test of line 79 holds of a label exactly when the label
    starts with the thirteen characters of ArrayControl-, each in
    either case, and a digit follows them; what comes after that digit
    does not matter, and neither does the case of the label. *)
Theorem control_pattern_in_words (s : string) :
  (Re.search true control_probe_re s = true <-> control_probe s)
  /\ Re.search true control_probe_re (lowercase s)
     = Re.search true control_probe_re s
  /\ (forall p d rest rest',
        chars s = p ++ d :: rest -> List.length p = 13 ->
        Re.search true control_probe_re (of_chars (p ++ d :: rest'))
        = Re.search true control_probe_re s).
Proof.
  split; [apply control_probe_re_spec |].
  assert (Hbool : forall a b : string,
            (control_probe a <-> control_probe b) ->
            Re.search true control_probe_re a
            = Re.search true control_probe_re b).
  { intros a b H.
    destruct (Re.search true control_probe_re a) eqn:Ea,
             (Re.search true control_probe_re b) eqn:Eb; try reflexivity.
    - apply control_probe_re_spec, H, control_probe_re_spec in Ea. congruence.
    - apply control_probe_re_spec, H, control_probe_re_spec in Eb. congruence. }
  split; [apply Hbool, control_probe_lowercase |].
  intros p d rest rest' Hs Hlen. apply Hbool.
  unfold control_probe, chars, of_chars.
  rewrite list_ascii_of_string_of_list_ascii. fold (chars s). rewrite Hs.
  assert (Hsplit : forall (r1 r2 : list ascii) p0 d0 r0,
            p ++ d :: r1 = p0 ++ d0 :: r0 ->
            map lower p0 = chars "arraycontrol-" ->
            exists r0', p ++ d :: r2 = p0 ++ d0 :: r0').
  { intros r1 r2 p0 d0 r0 H Hp0.
    assert (Hl : List.length p0 = List.length p).
    { rewrite Hlen, <- (length_map lower), Hp0. reflexivity. }
    apply app_same_length in H; [| congruence].
    destruct H as [-> H]. injection H as -> _. now exists r2. }
  split.
  - intros (p0 & d0 & r0 & H & Hp0 & Hd0).
    destruct (Hsplit rest' rest p0 d0 r0 H Hp0) as [r0' H'].
    now exists p0, d0, r0'.
  - intros (p0 & d0 & r0 & H & Hp0 & Hd0).
    destruct (Hsplit rest rest' p0 d0 r0 H Hp0) as [r0' H'].
    now exists p0, d0, r0'.
Qed.

Lemma control_pattern_in_words_witness :
  Re.search true control_probe_re "arrayCONTROL-42 (spike)" = true.
Proof.
  apply (proj1 (control_pattern_in_words "arrayCONTROL-42 (spike)")).
  exists (chars "arrayCONTROL-"), "4"%char, (chars "2 (spike)").
  repeat split; reflexivity.
Defined.

(** *** ['{:,}'.format] *)

Lemma digits_have_no_comma (d : Decimal.uint) :
  Forall (fun c => Ascii.eqb c comma = false)
         (chars (NilEmpty.string_of_uint d)).
Proof.
  induction d; cbn [NilEmpty.string_of_uint chars list_ascii_of_string];
    constructor; try reflexivity; assumption.
Qed.

Lemma group3_without_commas (ds : list ascii) :
  filter (fun c => negb (Ascii.eqb c comma)) (group3 ds)
  = filter (fun c => negb (Ascii.eqb c comma)) ds.
Proof.
  induction ds as [| d rest IH]; [reflexivity |].
  cbn [group3].
  destruct ((0 <? List.length rest) && (List.length rest mod 3 =? 0));
    cbn [filter]; rewrite ?IH; destruct (negb (Ascii.eqb d comma));
    try reflexivity.
Qed.

Lemma third_step (k : nat) :
  (if (0 <? k) && (k mod 3 =? 0) then 1 else 0) + (k - 1) / 3 = k / 3.
Proof.
  destruct k as [| m]; [reflexivity |].
  replace (S m - 1) with m by lia.
  pose proof (Nat.div_mod_eq m 3) as H1.
  pose proof (Nat.div_mod_eq (S m) 3) as H2.
  pose proof (Nat.mod_upper_bound m 3) as B1.
  pose proof (Nat.mod_upper_bound (S m) 3) as B2.
  cbn [Nat.ltb Nat.leb andb].
  destruct (Nat.eqb_spec (S m mod 3) 0); lia.
Qed.

Lemma group3_commas (ds : list ascii) :
  Forall (fun c => Ascii.eqb c comma = false) ds ->
  List.length (filter (fun c => Ascii.eqb c comma) (group3 ds))
  = (List.length ds - 1) / 3.
Proof.
  induction 1 as [| d rest Hd Hrest IH]; [reflexivity |].
  cbn [group3 List.length]. replace (S (List.length rest) - 1)
    with (List.length rest) by lia.
  rewrite <- (third_step (List.length rest)).
  destruct ((0 <? List.length rest) && (List.length rest mod 3 =? 0));
    cbn [filter]; rewrite Hd; cbn [filter List.length];
    rewrite ?Ascii.eqb_refl; cbn [List.length]; rewrite IH; lia.
Qed.

(** X6.  The numbers of the summary line are written with their decimal
    digits in the usual order and commas between them: without its
    commas the text is the plain decimal writing of the number, and a
    number of [d] digits gets [(d - 1) / 3] commas. *)
Theorem thousands_grouping (n : nat) :
  without_commas (format_thousands n) = chars (str_of_nat n)
  /\ count_commas (format_thousands n)
     = (List.length (chars (str_of_nat n)) - 1) / 3.
Proof.
  unfold without_commas, count_commas, format_thousands, chars, of_chars.
  rewrite list_ascii_of_string_of_list_ascii.
  pose proof (digits_have_no_comma (Nat.to_uint n)) as Hd.
  unfold str_of_nat, chars in *. split.
  - rewrite group3_without_commas. apply forallb_filter_id.
    apply forallb_forall. rewrite Forall_forall in Hd.
    intros c Hc. now rewrite (Hd c Hc).
  - now apply group3_commas.
Qed.

End Formats.

(* ================================================================== *)
(** ** Further properties of the cell plot *)

Module CellPlotExtras.
Import PyStr Pandas IO Samples Plotting PandasFacts Further.

Lemma mask_select_length {A B} (f : B -> bool) (cl : list B) (l : list A) :
  List.length cl = List.length l ->
  List.length (mask_select (map f cl) l) = List.length (filter f cl).
Proof.
  revert l. induction cl as [| z cl IH]; intros [| x l] H;
    try discriminate; [reflexivity |].
  injection H as H. cbn [map mask_select filter].
  destruct (f z); cbn [List.length]; now rewrite IH.
Qed.

Section Loop.
Variable colors : list string.
Variables (E : DataFrame) (cl : list Z) (marker_size : Q).
Hypothesis Hcells : List.length cl = List.length (rows E).
Hypothesis Hdims : 2 <= List.length (columns E).

(** One turn of the loop of lines 131-136 in the default colours. *)
Lemma scatter_step (col : option string) (i : nat) (rest : list nat) (c : string) :
  nth_error colors i = Some c ->
  scatter_loop colors E cl marker_size "adobo" col (i :: rest)
  = bind (emit (EvScatter (cluster_size cl i) c))
         (fun _ => scatter_loop colors E cl marker_size "adobo" (Some c) rest).
Proof.
  intros Hc. cbn [scatter_loop]. unfold getitem_mask.
  rewrite length_map, Hcells, Nat.eqb_refl, bind_ret.
  cbn [String.eqb Ascii.eqb Bool.eqb]. rewrite Hc, bind_ret.
  unfold iloc_column. cbn [select_rows columns rows].
  assert (H0 : (0 <? List.length (columns E)) = true) by (apply Nat.ltb_lt; lia).
  assert (H1 : (1 <? List.length (columns E)) = true) by (apply Nat.ltb_lt; lia).
  rewrite H0, bind_ret, H1, bind_ret, bind_ret.
  rewrite length_map, (mask_select_length _ cl (rows E) Hcells).
  reflexivity.
Qed.

Lemma scatter_loop_adobo (n a : nat) (col : option string) :
  a <= List.length colors ->
  scatter_loop colors E cl marker_size "adobo" col (seq a n)
  = if a + n <=? List.length colors
    then (scatters colors cl a n, inr tt)
    else (scatters colors cl a (List.length colors - a),
          inl (IndexError "list index out of range")).
Proof.
  revert a col. induction n as [| n IH]; intros a col Hle.
  - cbn [seq scatter_loop]. rewrite Nat.add_0_r.
    destruct (Nat.leb_spec a (List.length colors)) as [H | H];
      [reflexivity | lia].
  - cbn [seq].
    destruct (nth_error colors a) as [c |] eqn:Hc.
    + assert (Ha : a < List.length colors)
        by (apply nth_error_Some; congruence).
      rewrite (scatter_step col a _ c Hc), bind_emit, (IH (S a)) by lia.
      assert (Hn : nth a colors "" = c) by (now apply nth_error_nth).
      replace (S a + n) with (a + S n) by lia.
      destruct (Nat.leb_spec (a + S n) (List.length colors)) as [H | H];
        cbn [trace outcome fst snd]; unfold scatters.
      * cbn [seq map]. now rewrite Hn.
      * replace (List.length colors - a) with (S (List.length colors - S a))
          by lia.
        cbn [seq map]. now rewrite Hn.
    + apply nth_error_None in Hc.
      destruct (Nat.leb_spec (a + S n) (List.length colors)) as [H | H];
        [lia |].
      replace (List.length colors - a) with 0 by lia.
      cbn [scatter_loop]. unfold getitem_mask.
      rewrite length_map, Hcells, Nat.eqb_refl, bind_ret.
      cbn [String.eqb Ascii.eqb Bool.eqb].
      assert (Hnone : nth_error colors a = None) by (now apply nth_error_None).
      rewrite Hnone. reflexivity.
Qed.

End Loop.

Lemma points_drawn_app (a b : list event) :
  points_drawn (a ++ b) = points_drawn a + points_drawn b.
Proof.
  induction a as [| ev a IH]; [reflexivity |].
  destruct ev; cbn [app points_drawn]; rewrite IH; lia.
Qed.

Lemma labelled_below_step (k : nat) (cl : list Z) :
  List.length (labelled_below (S k) cl)
  = List.length (labelled_below k cl) + cluster_size cl k.
Proof.
  unfold labelled_below, cluster_size.
  induction cl as [| z cl IH]; [reflexivity |]. cbn [filter].
  destruct (Z.leb_spec 0 z), (Z.ltb_spec z (Z.of_nat (S k))),
           (Z.ltb_spec z (Z.of_nat k)), (Z.eqb_spec (Z.of_nat k) z);
    cbn [andb List.length]; try lia.
Qed.

Lemma points_of_scatters (colors : list string) (cl : list Z) (k : nat) :
  points_drawn (scatters colors cl 0 k) = List.length (labelled_below k cl).
Proof.
  induction k as [| k IH].
  - unfold labelled_below. cbn [scatters seq map points_drawn].
    induction cl as [| z cl IHc]; [reflexivity |]. cbn [filter].
    destruct (Z.leb_spec 0 z), (Z.ltb_spec z (Z.of_nat 0));
      cbn [andb]; try exact IHc; lia.
  - unfold scatters in *. rewrite seq_S, map_app, points_drawn_app, IH.
    rewrite labelled_below_step. cbn [map points_drawn Nat.add]. lia.
Qed.

Lemma n_unique_positive (cl : list Z) : cl <> [] -> 1 <= n_unique cl.
Proof.
  destruct cl as [| z cl]; [congruence |]. intros _. unfold n_unique.
  assert (H : In z (nodup Z.eq_dec (z :: cl))) by (apply nodup_In; now left).
  destruct (nodup Z.eq_dec (z :: cl)); [destruct H | cbn [List.length]; lia].
Qed.

Section Checks.
Variables (colors : list string) (ylw : string) (obj : dataset)
  (target : string) (marker_size : Q) (cluster_colors title : string)
  (verbose : bool).

Lemma target_known : In target targets ->
  existsb (String.eqb target) targets = true.
Proof.
  intros H. apply existsb_exists. exists target.
  split; [exact H | apply String.eqb_refl].
Qed.

(** X11.  The three checks of the arguments come before anything is
    drawn or printed, in this order: a target outside the four names, a
    target whose embedding has not been computed (the message lists the
    embeddings there are), a negative marker size. *)
Theorem cell_plot_argument_checks :
  (~ In target targets ->
   cell_plot colors ylw obj target marker_size cluster_colors title verbose
   = ([], inl (Exception (dq ++ "target" ++ dq
                            ++ " must be one of tsne, umap, irlb, svd"))))
  /\ (In target targets -> lookup target (dr obj) = None ->
      cell_plot colors ylw obj target marker_size cluster_colors title verbose
      = ([], inl (Exception ("Target " ++ dq ++ target ++ dq
                    ++ " was not found, the following are available: "
                    ++ join ", " (map fst (dr obj))))))
  /\ (In target targets -> lookup target (dr obj) <> None ->
      Qle_bool 0 marker_size = false ->
      cell_plot colors ylw obj target marker_size cluster_colors title verbose
      = ([], inl (Exception "Marker size cannot be negative."))).
Proof.
  split; [| split].
  - intros H. unfold cell_plot.
    destruct (existsb (String.eqb target) targets) eqn:E; [| reflexivity].
    apply existsb_exists in E as [x [Hx Heq]].
    apply String.eqb_eq in Heq. now subst x.
  - intros H Hdr. unfold cell_plot. now rewrite (target_known H), Hdr.
  - intros H Hdr Hsize. unfold cell_plot. rewrite (target_known H).
    destruct (lookup target (dr obj)); [| congruence].
    now rewrite Hsize.
Qed.

End Checks.

Lemma cell_plot_argument_checks_witness :
  cell_plot [] "#fcc603" unclustered "umap" (8 # 10) "adobo" "" true
  = ([], inl (Exception ("Target " ++ dq ++ "umap" ++ dq
                ++ " was not found, the following are available: tsne")))
  /\ cell_plot [] "#fcc603" unclustered "pca" (8 # 10) "adobo" "" true
     = ([], inl (Exception (dq ++ "target" ++ dq
                              ++ " must be one of tsne, umap, irlb, svd")))
  /\ cell_plot [] "#fcc603" unclustered "tsne" (- 1 # 10) "adobo" "" true
     = ([], inl (Exception "Marker size cannot be negative.")).
Proof.
  split; [| split].
  - apply (cell_plot_argument_checks [] "#fcc603" unclustered "umap").
    + simpl. tauto.
    + reflexivity.
  - apply (cell_plot_argument_checks [] "#fcc603" unclustered "pca").
    simpl. intros [H | [H | [H | [H | []]]]]; discriminate H.
  - apply (cell_plot_argument_checks [] "#fcc603" unclustered "tsne").
    + simpl. tauto.
    + discriminate.
    + reflexivity.
Defined.

Section Clustered.
Variables (colors : list string) (ylw : string) (obj : dataset)
  (E : DataFrame) (target : string) (marker_size : Q) (title : string)
  (verbose : bool).
Hypothesis Htarget : In target targets.
Hypothesis Hdr : lookup target (dr obj) = Some E.
Hypothesis Hsize : Qle_bool 0 marker_size = true.
Hypothesis Hclustered : clusters obj <> [].
Hypothesis Hcells :
  List.length (latest_clustering obj) = List.length (rows E).
Hypothesis Hdims : 2 <= List.length (columns E).

Lemma cell_plot_clustered (cluster_colors : string) :
  cell_plot colors ylw obj target marker_size cluster_colors title verbose
  = bind (emit EvClf)
      (fun _ =>
         bind (scatter_loop colors E (latest_clustering obj) marker_size
                 cluster_colors None
                 (seq 0 (n_unique (latest_clustering obj))))
              (fun _ => emit EvShow)).
Proof.
  unfold cell_plot. rewrite (target_known target Htarget), Hdr, Hsize.
  cbn [negb]. rewrite !bind_ret.
  destruct (clusters obj) as [| c cs] eqn:Hc; [congruence |].
  cbn [List.length Nat.eqb]. rewrite bind_ret.
  unfold latest_clustering. rewrite Hc. reflexivity.
Qed.

(** X12.  With a clustering and the default colours, the plot is
    cleared, then one scatter call is made for each of the numbers 0, 1,
    ... below the count of distinct labels of the latest clustering,
    with the cells carrying that number as label and the default colour
    of that number, then the plot is shown.  When there are more
    distinct labels than default colours, the calls stop after the last
    colour and the plot ends with [IndexError], never shown. *)
Theorem cell_plot_draws_clusters :
  cell_plot colors ylw obj target marker_size "adobo" title verbose
  = if n_unique (latest_clustering obj) <=? List.length colors
    then (EvClf :: scatters colors (latest_clustering obj) 0
                     (n_unique (latest_clustering obj)) ++ [EvShow],
          inr tt)
    else (EvClf :: scatters colors (latest_clustering obj) 0
                     (List.length colors),
          inl (IndexError "list index out of range")).
Proof.
  rewrite cell_plot_clustered, bind_emit.
  rewrite (scatter_loop_adobo colors E _ marker_size Hcells Hdims) by lia.
  cbn [Nat.add]. rewrite Nat.sub_0_r.
  destruct (n_unique (latest_clustering obj) <=? List.length colors);
    reflexivity.
Qed.

(** X13.  When the plot succeeds, the points drawn are the cells whose
    label is a number from 0 to one less than the count of distinct
    labels: a cell with any other label (a negative one, or one past a
    gap in the numbering) is left out. *)
Theorem cell_plot_points :
  n_unique (latest_clustering obj) <= List.length colors ->
  points_drawn
    (trace (cell_plot colors ylw obj target marker_size "adobo" title verbose))
  = List.length (labelled_below (n_unique (latest_clustering obj))
                   (latest_clustering obj)).
Proof.
  intros Hk. rewrite cell_plot_clustered, bind_emit.
  rewrite (scatter_loop_adobo colors E _ marker_size Hcells Hdims) by lia.
  apply Nat.leb_le in Hk. cbn [Nat.add]. rewrite Hk.
  cbn [trace fst outcome snd bind emit app points_drawn].
  rewrite points_drawn_app, points_of_scatters. cbn [points_drawn]. lia.
Qed.

(** X14.  With a clustering of at least one cell and any value of
    [cluster_colors] other than adobo, the plot is cleared and then ends
    with [UnboundLocalError] at the first scatter call: the colour is
    assigned for adobo only. *)
Theorem cell_plot_other_colours_unbound (cluster_colors : string) :
  cluster_colors <> "adobo" ->
  latest_clustering obj <> [] ->
  cell_plot colors ylw obj target marker_size cluster_colors title verbose
  = ([EvClf],
     inl (UnboundLocalError
            "local variable 'col' referenced before assignment")).
Proof.
  intros Hcol Hne. rewrite cell_plot_clustered, bind_emit.
  pose proof (n_unique_positive _ Hne) as Hk.
  destruct (n_unique (latest_clustering obj)) as [| k]; [lia |].
  cbn [seq scatter_loop]. unfold getitem_mask.
  rewrite length_map, Hcells, Nat.eqb_refl, bind_ret.
  apply String.eqb_neq in Hcol. rewrite Hcol, bind_ret.
  unfold iloc_column. cbn [select_rows columns rows].
  assert (H0 : (0 <? List.length (columns E)) = true) by (apply Nat.ltb_lt; lia).
  assert (H1 : (1 <? List.length (columns E)) = true) by (apply Nat.ltb_lt; lia).
  rewrite H0, bind_ret, H1, bind_ret. reflexivity.
Qed.

End Clustered.

Lemma cell_plot_draws_clusters_witness :
  cell_plot ["red"; "blue"] "#fcc603" clustered "tsne" (8 # 10) "adobo" "" true
  = ([EvClf; EvScatter 2 "red"; EvScatter 1 "blue"; EvShow], inr tt).
Proof.
  rewrite (cell_plot_draws_clusters ["red"; "blue"] "#fcc603" clustered
             tsne_embedding "tsne" (8 # 10) "" true).
  - reflexivity.
  - simpl. tauto.
  - reflexivity.
  - reflexivity.
  - discriminate.
  - reflexivity.
  - simpl. lia.
Defined.

Lemma cell_plot_points_witness :
  points_drawn
    (trace (cell_plot ["red"; "blue"] "#fcc603" clustered "tsne" (8 # 10)
              "adobo" "" true))
  = 3.
Proof.
  rewrite (cell_plot_points ["red"; "blue"] "#fcc603" clustered
             tsne_embedding "tsne" (8 # 10) "" true).
  - reflexivity.
  - simpl. tauto.
  - reflexivity.
  - reflexivity.
  - discriminate.
  - reflexivity.
  - simpl. lia.
  - vm_compute. lia.
Defined.

Lemma cell_plot_other_colours_unbound_witness :
  cell_plot ["red"; "blue"] "#fcc603" clustered "tsne" (8 # 10) "random" ""
    true
  = ([EvClf],
     inl (UnboundLocalError
            "local variable 'col' referenced before assignment")).
Proof.
  apply (cell_plot_other_colours_unbound ["red"; "blue"] "#fcc603" clustered
           tsne_embedding "tsne" (8 # 10) "" true).
  - simpl. tauto.
  - reflexivity.
  - reflexivity.
  - discriminate.
  - reflexivity.
  - simpl. lia.
  - discriminate.
  - discriminate.
Defined.

End CellPlotExtras.

(* ================================================================== *)
(** ** The bar plots *)

Module BarplotFacts.
Import PyStr Pandas IO Spec Samples Barplots Further.

(** *** Sorting *)

Lemma insert_desc_perm (x : Z) (l : list Z) :
  Permutation (insert_desc x l) (x :: l).
Proof.
  induction l as [| y l IH]; [reflexivity |]. cbn [insert_desc].
  destruct (y <=? x)%Z; [reflexivity |].
  rewrite IH. apply perm_swap.
Qed.

Lemma sorted_reverse_perm (l : list Z) : Permutation (sorted_reverse l) l.
Proof.
  induction l as [| x l IH]; [reflexivity |]. cbn [sorted_reverse].
  rewrite insert_desc_perm. now constructor.
Qed.

Lemma insert_desc_sorted (x : Z) (l : list Z) :
  StronglySorted Z.ge l -> StronglySorted Z.ge (insert_desc x l).
Proof.
  induction 1 as [| y l Hs IH Hy]; cbn [insert_desc].
  - repeat constructor.
  - destruct (Z.leb_spec y x) as [H | H].
    + constructor; [now constructor |].
      constructor; [lia |].
      eapply Forall_impl; [| exact Hy]. intros z Hz. lia.
    + constructor; [exact IH |].
      apply (Permutation_Forall (Permutation_sym (insert_desc_perm x l))).
      constructor; [lia | exact Hy].
Qed.

Lemma sorted_reverse_sorted (l : list Z) :
  StronglySorted Z.ge (sorted_reverse l).
Proof.
  induction l as [| x l IH]; [constructor |].
  now apply insert_desc_sorted.
Qed.

(** *** Sums that wrap around *)

Lemma wrap64_range (z : Z) : in_int64 (wrap64 z).
Proof.
  unfold in_int64, wrap64.
  pose proof (Z.mod_pos_bound (z + 2 ^ 63) (2 ^ 64) ltac:(lia)). lia.
Qed.

Lemma wrap64_small (z : Z) : in_int64 z -> wrap64 z = z.
Proof.
  unfold in_int64, wrap64. intros H.
  rewrite Z.mod_small by lia. lia.
Qed.

Lemma wrap64_add (x y : Z) : wrap64 (wrap64 x + y) = wrap64 (x + y).
Proof.
  unfold wrap64.
  replace ((x + 2 ^ 63) mod 2 ^ 64 - 2 ^ 63 + y + 2 ^ 63)%Z
    with ((x + 2 ^ 63) mod 2 ^ 64 + y)%Z by lia.
  rewrite Zplus_mod_idemp_l. f_equal. f_equal. lia.
Qed.

Lemma int_sum_ints (vs : list value) (acc : Z) :
  Forall (fun v => is_integer v = true) vs ->
  int_sum (wrap64 acc) vs = Some (wrap64 (acc + total (map int_of vs))).
Proof.
  intros H. revert acc. induction H as [| v vs Hv _ IH]; intros acc.
  - cbn [int_sum map total fold_right]. now rewrite Z.add_0_r.
  - destruct v; try discriminate. cbn [int_sum map int_of].
    rewrite wrap64_add, IH. unfold total. cbn [fold_right].
    now rewrite Z.add_assoc.
Qed.

Lemma column_ints (df : DataFrame) (k : nat) :
  typed df = true ->
  forallb (fun d => dtype_eqb d int64) (dtypes df) = true ->
  k < List.length (dtypes df) ->
  Forall (fun v => is_integer v = true) (column df k).
Proof.
  intros Ht Hint Hk. unfold column. apply Forall_forall. intros v Hv.
  apply in_map_iff in Hv as [r [<- Hr]].
  unfold typed in Ht. rewrite forallb_forall in Ht. specialize (Ht r Hr).
  apply (LoaderFacts.int64_cells _ _ _ Ht Hint).
  apply nth_In. rewrite (Orientation.all_have_dtype_length _ _ Ht). exact Hk.
Qed.

Lemma all_some_map {A B} (f : A -> option B) (g : A -> B) (l : list A) :
  (forall a, In a l -> f a = Some (g a)) ->
  all_some (map f l) = Some (map g l).
Proof.
  induction l as [| a l IH]; intros H; [reflexivity |].
  cbn [map all_some]. rewrite (H a (or_introl eq_refl)).
  rewrite IH by (intros x Hx; apply H; now right). reflexivity.
Qed.

Lemma wf_columns_length (df : DataFrame) :
  wf_frame df = true -> List.length (dtypes df) = List.length (columns df).
Proof.
  unfold wf_frame. intros H.
  apply andb_prop in H as [H _]. apply andb_prop in H as [H _].
  apply andb_prop in H as [H _]. now apply Nat.eqb_eq.
Qed.

(** The sums of the columns of a matrix of integers. *)
Lemma sum_axis0_ints (df : DataFrame) :
  wf_frame df = true ->
  forallb (fun d => dtype_eqb d int64) (dtypes df) = true ->
  sum_axis0 df
  = Some (map (fun k => wrap64 (total (map int_of (column df k))))
              (column_numbers df)).
Proof.
  intros Hwf Hint. unfold sum_axis0. apply all_some_map.
  intros k Hk. unfold column_numbers in Hk. apply in_seq in Hk.
  change 0%Z with (wrap64 0) at 1.
  rewrite int_sum_ints; [reflexivity |].
  apply column_ints; [now apply LoaderFacts.wf_typed | exact Hint |].
  rewrite (wf_columns_length df Hwf). lia.
Qed.

(** *** Reads per cell *)

(** X15.  On a matrix of integer columns, such as a loaded dataset has,
    the bar plot of the reads per cell is cleared first and draws one
    bar per column; the heights are the column sums, computed in 64 bits
    with wrap-around, arranged from the highest to the lowest, all in
    the same colour.  A column whose true sum fits 64 bits gets that
    sum. *)
Theorem reads_per_cell_bars
  (obj : dataset) (barcolor : string) (filename : option string)
  (title : string) :
  wf_frame (exp_mat obj) = true ->
  forallb (fun d => dtype_eqb d int64) (dtypes (exp_mat obj)) = true ->
  let n := List.length (columns (exp_mat obj)) in
  let sums := map (fun k => wrap64 (total (map int_of (column (exp_mat obj) k))))
                  (seq 0 n) in
  exists heights rest,
    barplot_reads_per_cell obj barcolor filename title
    = Some (PltClf :: PltBar (seq 0 n) heights (repeat barcolor n) :: rest)
    /\ Permutation heights sums
    /\ StronglySorted Z.ge heights
    /\ (forall k, k < n ->
          in_int64 (total (map int_of (column (exp_mat obj) k))) ->
          In (total (map int_of (column (exp_mat obj) k))) heights).
Proof.
  intros Hwf Hint n sums. unfold barplot_reads_per_cell.
  rewrite (sum_axis0_ints _ Hwf Hint). fold n. unfold column_numbers.
  fold n. fold sums.
  assert (Hlen : List.length sums = n)
    by (unfold sums; now rewrite length_map, length_seq).
  exists (sorted_reverse sums). eexists. unfold draw_bars. rewrite Hlen.
  split; [reflexivity |].
  split; [apply sorted_reverse_perm |].
  split; [apply sorted_reverse_sorted |].
  intros k Hk Hfit.
  apply (Permutation_in (l := sums)); [symmetry; apply sorted_reverse_perm |].
  unfold sums. apply in_map_iff. exists k.
  split; [now apply wrap64_small | apply in_seq; lia].
Qed.

Lemma reads_per_cell_bars_witness :
  exists rest,
    barplot_reads_per_cell
      (new_dataset gapdh_oriented "no desc set" None "counts.txt" false)
      "#E69F00" None "sequencing reads"
    = Some (PltClf :: PltBar [0; 1] [12; 9]%Z ["#E69F00"; "#E69F00"] :: rest).
Proof.
  destruct (reads_per_cell_bars
              (new_dataset gapdh_oriented "no desc set" None "counts.txt" false)
              "#E69F00" None "sequencing reads" eq_refl eq_refl)
    as (heights & rest & Hplot & _).
  exists rest. rewrite Hplot.
  vm_compute in Hplot. injection Hplot as <- _. reflexivity.
Defined.

(** *** Genes per cell *)

Lemma count_positive_numbers (vs : list value) :
  forallb (fun v => negb (is_text v)) vs = true ->
  count_positive vs = inr (List.length (filter expressed vs)).
Proof.
  induction vs as [| v vs IH]; [reflexivity |].
  cbn [forallb]. intros H. apply andb_prop in H as [Hv H].
  cbn [count_positive filter]. rewrite (IH H).
  destruct v; try discriminate; cbn [positive expressed];
    try destruct (0 <? z)%Z; try destruct (Qle_bool q 0); try destruct b;
    reflexivity.
Qed.

Lemma count_positive_text (vs : list value) :
  existsb is_text vs = true ->
  count_positive vs
  = inl (TypeError "'>' not supported between instances of 'str' and 'int'").
Proof.
  induction vs as [| v vs IH]; [discriminate |].
  cbn [existsb count_positive]. intros H.
  destruct v; cbn [is_text positive orb] in *; try reflexivity;
    rewrite (IH H); reflexivity.
Qed.

Lemma all_right_map {E A B} (f : A -> E + B) (g : A -> B) (l : list A) :
  (forall a, In a l -> f a = inr (g a)) ->
  all_right (map f l) = inr (map g l).
Proof.
  induction l as [| a l IH]; intros H; [reflexivity |].
  cbn [map all_right]. rewrite (H a (or_introl eq_refl)).
  rewrite IH by (intros x Hx; apply H; now right). reflexivity.
Qed.

Lemma all_right_error {E A B} (f : A -> E + B) (e : E) (l : list A) (a : A) :
  In a l -> f a = inl e ->
  (forall x e', f x = inl e' -> e' = e) ->
  all_right (map f l) = inl e.
Proof.
  intros Hin Ha Hsame. induction l as [| x l IH]; [destruct Hin |].
  cbn [map all_right]. destruct (f x) as [e' | b] eqn:Hx.
  - now rewrite (Hsame x e' Hx).
  - destruct Hin as [-> | Hin]; [congruence |]. now rewrite (IH Hin).
Qed.

(** X16.  On a matrix without text the bar plot of the genes per cell
    draws one bar per column; the heights are the numbers of positive
    cells of the columns, arranged from the highest to the lowest, so
    every bar lies between zero and the number of rows. *)
Theorem genes_per_cell_bars
  (obj : dataset) (barcolor : string) (filename : option string)
  (title : string) :
  (forall r, In r (rows (exp_mat obj)) ->
             forallb (fun v => negb (is_text v)) (cells r) = true) ->
  let n := List.length (columns (exp_mat obj)) in
  let counts :=
    map (fun k => Z.of_nat (List.length
                              (filter expressed (column (exp_mat obj) k))))
        (seq 0 n) in
  exists heights rest,
    barplot_genes_per_cell obj barcolor filename title
    = inr (PltClf :: PltBar (seq 0 n) heights (repeat barcolor n) :: rest)
    /\ Permutation heights counts
    /\ StronglySorted Z.ge heights
    /\ Forall (fun h => (0 <= h <= Z.of_nat (List.length (rows (exp_mat obj))))%Z)
              heights.
Proof.
  intros Hnum n counts. unfold barplot_genes_per_cell, genes_expressed.
  rewrite (all_right_map _
             (fun k => List.length (filter expressed (column (exp_mat obj) k)))).
  2:{ intros k _. apply count_positive_numbers. unfold column.
      apply forallb_forall. intros v Hv.
      apply in_map_iff in Hv as [r [<- Hr]].
      specialize (Hnum r Hr). rewrite forallb_forall in Hnum.
      destruct (Nat.lt_ge_cases k (List.length (cells r))) as [Hk | Hk].
      - apply Hnum, nth_In, Hk.
      - now rewrite nth_overflow. }
  unfold column_numbers. fold n. rewrite map_map. fold counts.
  assert (Hlen : List.length counts = n)
    by (unfold counts; now rewrite length_map, length_seq).
  exists (sorted_reverse counts). eexists. unfold draw_bars. rewrite Hlen.
  split; [reflexivity |].
  split; [apply sorted_reverse_perm |].
  split; [apply sorted_reverse_sorted |].
  apply (Permutation_Forall (Permutation_sym (sorted_reverse_perm counts))).
  unfold counts. apply Forall_forall. intros h Hh.
  apply in_map_iff in Hh as [k [<- _]].
  pose proof (filter_length_le expressed (column (exp_mat obj) k)) as Hle.
  unfold column in Hle at 2. rewrite length_map in Hle. lia.
Qed.

Lemma genes_per_cell_bars_witness :
  exists rest,
    barplot_genes_per_cell
      (new_dataset gapdh_oriented "no desc set" None "counts.txt" false)
      "#E69F00" None "expressed genes"
    = inr (PltClf :: PltBar [0; 1] [3; 3]%Z ["#E69F00"; "#E69F00"] :: rest).
Proof.
  destruct (genes_per_cell_bars
              (new_dataset gapdh_oriented "no desc set" None "counts.txt" false)
              "#E69F00" None "expressed genes")
    as (heights & rest & Hplot & _).
  - intros r [<- | [<- | [<- | []]]]; reflexivity.
  - exists rest. rewrite Hplot.
    vm_compute in Hplot. injection Hplot as <- _. reflexivity.
Defined.

(** X17.  A cell of text anywhere in a well-formed matrix ends the bar
    plot of the genes per cell with [TypeError], raised by the
    comparison with zero before the plot is cleared or drawn. *)
Theorem genes_per_cell_text
  (obj : dataset) (barcolor : string) (filename : option string)
  (title : string) (r : Row) :
  wf_frame (exp_mat obj) = true ->
  In r (rows (exp_mat obj)) ->
  existsb is_text (cells r) = true ->
  barplot_genes_per_cell obj barcolor filename title
  = inl (TypeError "'>' not supported between instances of 'str' and 'int'").
Proof.
  intros Hwf Hr Htext. unfold barplot_genes_per_cell, genes_expressed.
  apply existsb_exists in Htext as [v [Hv Hs]].
  apply In_nth with (d := VNaN) in Hv as [k [Hk Hnth]].
  pose proof (LoaderFacts.wf_typed _ Hwf) as Ht.
  unfold typed in Ht. rewrite forallb_forall in Ht.
  pose proof (Orientation.all_have_dtype_length _ _ (Ht r Hr)) as Hlen.
  rewrite (wf_columns_length _ Hwf) in Hlen.
  rewrite (all_right_error _
             (TypeError "'>' not supported between instances of 'str' and 'int'")
             _ k); [reflexivity | | |].
  - unfold column_numbers. apply in_seq. lia.
  - apply count_positive_text. apply existsb_exists. exists v.
    split; [| exact Hs]. unfold column. apply in_map_iff. now exists r.
  - intros x e' Hx.
    destruct (existsb is_text (column (exp_mat obj) x)) eqn:E.
    + rewrite (count_positive_text _ E) in Hx. congruence.
    + rewrite count_positive_numbers in Hx; [discriminate |].
      apply forallb_forall. intros y Hy.
      destruct (is_text y) eqn:Ey; [| reflexivity].
      assert (existsb is_text (column (exp_mat obj) x) = true)
        by (apply existsb_exists; now exists y).
      congruence.
Qed.

Lemma genes_per_cell_text_witness :
  barplot_genes_per_cell
    (new_dataset gapdh_table "no desc set" None "counts.txt" false)
    "#E69F00" None "expressed genes"
  = inl (TypeError "'>' not supported between instances of 'str' and 'int'").
Proof.
  apply (genes_per_cell_text _ _ _ _
           (row (VInt 0) [VStr "Gapdh"; VInt 1; VInt 2])).
  - reflexivity.
  - left. reflexivity.
  - reflexivity.
Defined.

(** *** File or window *)

Lemma draw_bars_end (heights : list Z) (barcolor ylabel : string)
  (filename : option string) (title : string) :
  let calls := draw_bars heights barcolor ylabel filename title in
  last calls PltClf = PltClose
  /\ (truthy filename = true ->
      exists f, filename = Some f
        /\ filter is_savefig calls = [PltSavefig f "tight"]
        /\ filter is_show calls = [])
  /\ (truthy filename = false ->
      filter is_savefig calls = [] /\ filter is_show calls = [PltShow]).
Proof.
  unfold draw_bars, truthy.
  destruct filename as [f |]; [destruct (String.eqb f "") |];
    cbn [negb app last filter is_savefig is_show];
    (split; [reflexivity |]); split; intros H; try discriminate H.
  - split; reflexivity.
  - exists f. repeat split.
  - split; reflexivity.
Qed.

(** X18.  Both bar plots, when they draw, end with [plt.close()], and on
    the way either save the figure or show it, never both: the figure is
    saved, with tight bounding box, when a file name other than the
    empty string is given, and shown when the name is missing or
    empty. *)
Theorem bars_saved_or_shown
  (obj : dataset) (barcolor : string) (filename : option string)
  (title : string) (calls : list plt_call) :
  barplot_reads_per_cell obj barcolor filename title = Some calls
  \/ barplot_genes_per_cell obj barcolor filename title = inr calls ->
  last calls PltClf = PltClose
  /\ (truthy filename = true ->
      exists f, filename = Some f
        /\ filter is_savefig calls = [PltSavefig f "tight"]
        /\ filter is_show calls = [])
  /\ (truthy filename = false ->
      filter is_savefig calls = [] /\ filter is_show calls = [PltShow]).
Proof.
  intros H.
  assert (Hc : exists heights ylabel,
             calls = PltClf :: draw_bars heights barcolor ylabel filename title).
  { destruct H as [H | H].
    - unfold barplot_reads_per_cell in H.
      destruct (sum_axis0 (exp_mat obj)) as [sums |]; [| discriminate].
      injection H as <-. now eexists _, _.
    - unfold barplot_genes_per_cell in H.
      destruct (genes_expressed (exp_mat obj)) as [e | counts];
        [discriminate |].
      injection H as <-. now eexists _, _. }
  destruct Hc as (heights & ylabel & ->).
  destruct (draw_bars_end heights barcolor ylabel filename title)
    as (Hlast & Hsave & Hshow).
  split; [| split].
  - unfold draw_bars in *. cbn [app last] in *. exact Hlast.
  - intros Ht. destruct (Hsave Ht) as (f & Hf & H1 & H2).
    exists f. cbn [filter is_savefig is_show]. now repeat split.
  - intros Ht. destruct (Hshow Ht) as [H1 H2].
    cbn [filter is_savefig is_show]. now split.
Qed.

Lemma bars_saved_or_shown_witness :
  exists calls,
    barplot_reads_per_cell
      (new_dataset gapdh_oriented "no desc set" None "counts.txt" false)
      "#E69F00" (Some "reads.pdf") "sequencing reads" = Some calls
    /\ filter is_savefig calls = [PltSavefig "reads.pdf" "tight"]
    /\ filter is_show calls = [].
Proof.
  eexists. split; [vm_compute; reflexivity |].
  destruct (bars_saved_or_shown
              (new_dataset gapdh_oriented "no desc set" None "counts.txt" false)
              "#E69F00" (Some "reads.pdf") "sequencing reads" _
              (or_introl eq_refl)) as (_ & Hsave & _).
  destruct (Hsave eq_refl) as (f & Hf & H1 & H2).
  injection Hf as <-. split; [exact H1 | exact H2].
Defined.

End BarplotFacts.
